(** * TensorflowTensorHandler: a shallow embedding

    The handler of [bentoml/handlers/tensorflow_tensor_handler.py] turns
    requests that carry JSON-encoded tensors into one call of a model
    function.  This file embeds its four entry points
    ([handle_batch_request], [handle_request], [handle_cli],
    [handle_aws_lambda_event]) and the helper [_handle_raw_str], and
    proves the properties of the batching protocol and of its error
    handling.

    Python values are an inductive type, dictionaries with string keys
    that come out of [json.loads] are association lists in insertion
    order, header and configuration dictionaries are finite maps, the
    slot lists of the batch loop are lists updated by index.  Exceptions
    are values of an error type; every call across the boundary of the
    handler (the JSON parser, the nested decoder, the array constructor,
    the model function) is recorded in a log, so that "is invoked", "is
    invoked once" and "is never reached" are statements about that log. *)

From Stdlib Require Import ZArith Ascii String.
From stdpp Require Import base option list gmap strings pretty fin_maps.

Open Scope string_scope.
Open Scope list_scope.
Open Scope Z_scope.
Open Scope nat_scope.

(** ** Python values *)

#[local] Set Warnings "-register-all".

(** A float as [json.loads] can produce it: a finite value (mantissa and
    binary exponent), an infinity or a NaN.  Only its truth value matters
    to the handler. *)
Inductive pyfloat : Type :=
  | FFinite (mantissa exponent : Z)
  | FInf (negative : bool)
  | FNaN.

Inductive pyval : Type :=
  | VNone
  | VBool (b : bool)
  | VInt (z : Z)
  | VFloat (f : pyfloat)
  | VStr (s : string)
  | VBytes (bs : string)
  | VList (xs : list pyval)
  | VDict (kvs : list (string * pyval)).

(** [x is None] *)
Definition is_None (v : pyval) : bool :=
  match v with VNone => true | _ => false end.

(** The truth value of an object, as [if x:] tests it. *)
Definition truthy (v : pyval) : bool :=
  match v with
  | VNone => false
  | VBool b => b
  | VInt z => negb (z =? 0)%Z
  | VFloat (FFinite m _) => negb (m =? 0)%Z
  | VFloat _ => true
  | VStr s => negb (bool_decide (s = ""))
  | VBytes bs => negb (bool_decide (bs = ""))
  | VList xs => match xs with [] => false | _ :: _ => true end
  | VDict kvs => match kvs with [] => false | _ :: _ => true end
  end.

(** ** Exceptions and results *)

(** The classes of the [Exception] hierarchy that the handler raises,
    catches or lets through.  [OtherException] stands for any class that
    is none of the others. *)
Inductive exn : Type :=
  | JSONDecodeError (msg : string)
  | UnicodeDecodeError (msg : string)
  | AttributeError (msg : string)
  | TypeError (msg : string)
  | ValueError (msg : string)
  | KeyError (key : string)
  | IndexError (msg : string)
  | NotImplementedError (msg : string)
  | UnboundLocalError (var : string)
  | BadInput (msg : string)
  | BentoMLException (msg : string)
  | ShapeMismatch
  | OtherException (cls msg : string).

Inductive result (A : Type) : Type :=
  | Return (a : A)
  | Raise (e : exn).
Arguments Return {A} a.
Arguments Raise {A} e.

#[global] Instance result_ret : MRet result := fun _ a => Return a.
#[global] Instance result_bind : MBind result := fun _ _ f m =>
  match m with Return a => f a | Raise e => Raise e end.

(** [except (json.JSONDecodeError, UnicodeDecodeError)] *)
Definition is_parse_error (e : exn) : bool :=
  match e with
  | JSONDecodeError _ | UnicodeDecodeError _ => true
  | _ => false
  end.

(** [d.get(key)]: the value under [key], [None] when the key is missing;
    an object that is not a dictionary has no [get]. *)
Fixpoint assoc_get (key : string) (kvs : list (string * pyval)) : pyval :=
  match kvs with
  | [] => VNone
  | (k, v) :: kvs' => if bool_decide (k = key) then v else assoc_get key kvs'
  end.

Definition py_get (d : pyval) (key : string) : result pyval :=
  match d with
  | VDict kvs => Return (assoc_get key kvs)
  | _ => Raise (AttributeError "object has no attribute 'get'")
  end.

(** [l[i] = x]: an index past the end of the list is an error. *)
Definition py_setitem {A : Type} (i : nat) (x : A) (l : list A) : result (list A) :=
  if bool_decide (i < length l)%nat then Return (<[i := x]> l)
  else Raise (IndexError "list assignment index out of range").

(** [s.lower()] on an ASCII string. *)
Definition lower_ascii (c : ascii) : ascii :=
  let n := nat_of_ascii c in
  if ((65 <=? n)%nat && (n <=? 90)%nat)%bool then ascii_of_nat (n + 32) else c.

Fixpoint lower (s : string) : string :=
  match s with
  | EmptyString => EmptyString
  | String c s' => String (lower_ascii c) (lower s')
  end.

(** ** Requests and responses of the marshalling layer *)

(** [SimpleRequest]: [formated_headers] is the dictionary of the headers
    with lower-cased names, [data] the body. *)
Record SimpleRequest : Type := {
  formated_headers : gmap string string;
  data : string;
}.

(** [SimpleResponse(status, headers, data)] *)
Record SimpleResponse : Type := {
  status : Z;
  headers : option (list (string * string));
  resp_data : string;
}.

#[global] Instance SimpleResponse_eq_dec : EqDecision SimpleResponse.
Proof. solve_decision. Defined.

(** A slice range [(start, end)] of the merged flat sequence. *)
Definition SliceRange : Type := nat * nat.

Definition slice_len (s : SliceRange) : nat := (s.2 - s.1)%nat.

Definition take_slice {A : Type} (s : SliceRange) (xs : list A) : list A :=
  take (s.2 - s.1)%nat (drop s.1 xs).

(** Modelled from the spec: [concat_list] of [bentoml.handlers.utils]
    (the slice-tracking merger), which is not part of the sources at
    hand.  Requests are visited in order.  A request whose flag is true
    appends each of its instances to the flat sequence; a request whose
    flag is not true appends its whole instance list as one element; an
    absent entry appends nothing and receives a range of length zero.
    The range of each request is recorded in the same order.  The spec
    describes entries that are lists; under a true flag an entry that is
    not a list has no instances to iterate over and is rejected. *)
Fixpoint concat_list_from (row : nat) (lst : list (option pyval))
    (batch_flags : list (option bool)) : result (list pyval * list SliceRange) :=
  match lst, batch_flags with
  | r :: lst', flag :: flags' =>
      match r with
      | None =>
          '(datas, slices) ← concat_list_from row lst' flags';
          Return (datas, (row, row) :: slices)
      | Some v =>
          if bool_decide (flag = Some true) then
            match v with
            | VList items =>
                '(datas, slices) ← concat_list_from (row + length items) lst' flags';
                Return (items ++ datas, (row, row + length items) :: slices)
            | _ => Raise (TypeError "instances is not a list")
            end
          else
            '(datas, slices) ← concat_list_from (row + 1) lst' flags';
            Return (v :: datas, (row, row + 1) :: slices)
      end
  | _, _ => Return ([], [])
  end.

Definition concat_list (lst : list (option pyval)) (batch_flags : list (option bool))
    : result (list pyval * list SliceRange) :=
  concat_list_from 0 lst batch_flags.

(** The request object of the HTTP channel: the declared content type
    ([None] when the request declares none) and the body. *)
Record HttpRequest : Type := {
  content_type : option string;
  request_data : string;
}.

(** The event of the serverless channel: [event["headers"]] and
    [event["body"]]. *)
Record LambdaEvent : Type := {
  lambda_headers : gmap string string;
  lambda_body : string;
}.

(** [d[key]] on a dictionary of strings. *)
Definition dict_index (d : gmap string string) (key : string) : result string :=
  match d !! key with
  | Some v => Return v
  | None => Raise (KeyError key)
  end.

(** ** The handler and its collaborators *)

Section Handler.

(** The array type of the tensor library, the rows of the array that
    the model function returns (the combined result of a batch is a
    list of rows, its outer dimension is the length of that list), and
    the response types of the three single-request channels. *)
Context {Tensor Row HttpResponse CliResult LambdaResponse : Type}.

Definition Output : Type := list Row.

(** The output adapter of the handler ([self.output_adapter]), an
    interface with one method per channel. *)
Record OutputAdapter : Type := {
  to_batch_response :
    Output → list SliceRange → list SimpleResponse → list SimpleRequest →
    result (list SimpleResponse);
  to_response : Output → HttpRequest → result HttpResponse;
  to_cli : Output → list string → result CliResult;
  to_aws_lambda_event : Output → LambdaEvent → result LambdaResponse;
}.

(** Modelled from the spec: the per-position step of
    [to_batch_response] of the output adapter (the result
    demultiplexer), which is not part of the sources at hand.  There is
    one response per request position, in order: the fallback of that
    position, verbatim, for a request that contributed nothing to the
    flat sequence (the handler fills every fallback slot, so it is the
    range of length zero that tells such a request), and for any other
    request the slice of the combined result at its range, passed
    through the output formatter [fmt]. *)
Fixpoint demultiplex (fmt : Output → SimpleRequest → SimpleResponse)
    (merged_result : Output) (slices : list SliceRange)
    (fallbacks : list SimpleResponse) (requests : list SimpleRequest)
    : list SimpleResponse :=
  match slices, fallbacks, requests with
  | s :: slices', f :: fallbacks', r :: requests' =>
      (if bool_decide (slice_len s = 0) then f
       else fmt (take_slice s merged_result) r)
      :: demultiplex fmt merged_result slices' fallbacks' requests'
  | _, _, _ => []
  end.

(** Modelled from the spec: [to_batch_response] of the output adapter,
    which is not part of the sources at hand.  A combined result whose
    outer dimension differs from the length of the flat sequence (the
    sum of the lengths of the ranges) is a fatal shape mismatch;
    otherwise the responses are those of [demultiplex]. *)
Definition spec_to_batch_response (fmt : Output → SimpleRequest → SimpleResponse)
    (merged_result : Output) (slices : list SliceRange)
    (fallbacks : list SimpleResponse) (requests : list SimpleRequest)
    : result (list SimpleResponse) :=
  if bool_decide (length merged_result = sum_list (slice_len <$> slices))
  then Return (demultiplex fmt merged_result slices fallbacks requests)
  else Raise ShapeMismatch.

(** What the handler calls and does not define: [json.loads], the
    decoding of bytes as UTF-8, [decode_b64_if_needed] (the nested
    converter built on [tf_b64_2_bytes]), [tf.constant],
    [traceback.format_exc] for the exception being handled, and
    [parse_known_args] of the command-line parser ([None] when the
    parser ends the process). *)
Record Collaborators : Type := {
  json_loads : string → result pyval;
  utf8_decode : string → result string;
  decode_b64_if_needed : pyval → result pyval;
  tf_constant : pyval → result Tensor;
  format_exc : exn → string;
  parse_known_args : list string → option (string * list string);
}.

(** The handler object: [method], the configuration of the base class,
    the name of the header that overrides the batch flag, and the
    output adapter. *)
Record TensorflowTensorHandler : Type := {
  method : string;
  base_config : gmap string pyval;
  _BATCH_REQUEST_HEADER : string;
  output_adapter : OutputAdapter;
}.

(** [dict(base_config, method=self.method)] *)
Definition config (self : TensorflowTensorHandler) : gmap string pyval :=
  <["method" := VStr (method self)]> (base_config self).

(** Calls that leave the handler, in the order they are made. *)
Inductive event : Type :=
  | EvUtf8Decode (raw : string)
  | EvJsonLoads (raw : string)
  | EvDecodeB64 (v : pyval)
  | EvTfConstant (v : pyval)
  | EvFunc (t : Tensor).

(** The arguments of the calls of the model function, in order. *)
Fixpoint func_calls (log : list event) : list Tensor :=
  match log with
  | [] => []
  | EvFunc t :: log' => t :: func_calls log'
  | _ :: log' => func_calls log'
  end.

(** ** Computations: local variables, a log, and exceptions *)

Definition M (L A : Type) : Type := L → list event → (L * list event) * result A.

#[global] Instance M_ret {L} : MRet (M L) := fun _ a st log => ((st, log), Return a).
#[global] Instance M_bind {L} : MBind (M L) := fun _ _ f m st log =>
  match m st log with
  | ((st', log'), Return a) => f a st' log'
  | ((st', log'), Raise e) => ((st', log'), Raise e)
  end.

Definition raise {L A} (e : exn) : M L A := fun st log => ((st, log), Raise e).

Definition lift {L A} (r : result A) : M L A := fun st log => ((st, log), r).

(** A call across the boundary: logged, then its outcome. *)
Definition call {L A} (ev : event) (r : result A) : M L A :=
  fun st log => ((st, log ++ [ev]), r).

Definition get_locals {L} : M L L := fun st log => ((st, log), Return st).

Definition modify {L} (f : L → L) : M L unit := fun st log => ((f st, log), Return ()).

(** An assignment that can fail: the locals change only if it succeeds. *)
Definition update {L} (f : L → result L) : M L unit :=
  fun st log =>
    match f st with
    | Return st' => ((st', log), Return ())
    | Raise e => ((st, log), Raise e)
    end.

(** [try: m  except ... as e: h e]; the handler sees the locals as the
    body left them. *)
Definition try_except {L A} (m : M L A) (h : exn → M L A) : M L A :=
  fun st log =>
    match m st log with
    | ((st', log'), Raise e) => h e st' log'
    | r => r
    end.

(** [for i, x in enumerate(xs): body i x], counting from [i]. *)
Fixpoint for_each {L A} (body : nat → A → M L unit) (i : nat) (xs : list A) : M L unit :=
  match xs with
  | [] => mret ()
  | x :: xs' => body i x ;; for_each body (S i) xs'
  end.

(** A method call: the callee runs in a frame of its own, with locals
    [init]; the log is shared. *)
Definition in_frame {L L' A} (init : L) (m : M L A) : M L' A :=
  fun st log => let '((_, log'), r) := m init log in ((st, log'), r).

(** ** The handler *)

Variable env : Collaborators.
Variable self : TensorflowTensorHandler.
Variable func : Tensor → result Output.

(** *** [_handle_raw_str] *)

(** The one local variable of [_handle_raw_str] that can be read before
    it is assigned is [parsed_tensor]. *)
Definition read_parsed_tensor : M (option Tensor) Tensor :=
  fun st log =>
    match st with
    | Some t => ((st, log), Return t)
    | None => ((st, log), Raise (UnboundLocalError "parsed_tensor"))
    end.

Definition _handle_raw_str (raw_str : string) : M (option Tensor) Output :=
  parsed_json ← call (EvJsonLoads raw_str) (json_loads env raw_str);
  v ← lift (py_get parsed_json "instances");
  (if negb (is_None v) then
     instances ← lift (py_get parsed_json "instances");
     instances ← call (EvDecodeB64 instances) (decode_b64_if_needed env instances);
     t ← call (EvTfConstant instances) (tf_constant env instances);
     modify (fun _ => Some t)
   else
     w ← lift (py_get parsed_json "inputs");
     if truthy w
     then raise (NotImplementedError "column format 'inputs' is not implemented")
     else mret ()) ;;
  parsed_tensor ← read_parsed_tensor;
  call (EvFunc parsed_tensor) (func parsed_tensor).

(** *** [handle_batch_request] *)

Record batch_locals : Type := {
  instances_list : list (option pyval);
  responses : list SimpleResponse;
  batch_flags : list (option bool);
}.

Definition bad_resp : SimpleResponse :=
  Build_SimpleResponse 400%Z None "input format error".

Definition not_implemented_resp : SimpleResponse :=
  Build_SimpleResponse 501%Z None "Column format 'inputs' not implemented".

Definition internal_error_resp (err : string) : SimpleResponse :=
  Build_SimpleResponse 500%Z None ("Internal Server Error: " +:+ err).

(** [instances_list[i] = v], [responses[i] = r], [batch_flags[i] = b] *)
Definition set_instances (i : nat) (v : pyval) (st : batch_locals)
    : result batch_locals :=
  l ← py_setitem i (Some v) (instances_list st);
  Return {| instances_list := l;
            responses := responses st;
            batch_flags := batch_flags st |}.

Definition set_response (i : nat) (r : SimpleResponse) (st : batch_locals)
    : result batch_locals :=
  l ← py_setitem i r (responses st);
  Return {| instances_list := instances_list st;
            responses := l;
            batch_flags := batch_flags st |}.

Definition set_batch_flag (i : nat) (b : bool) (st : batch_locals)
    : result batch_locals :=
  l ← py_setitem i (Some b) (batch_flags st);
  Return {| instances_list := instances_list st;
            responses := responses st;
            batch_flags := l |}.

(** The value of the batch flag of a request: the override header,
    looked up under the lower-cased header name, with the configured
    [is_batch_input] as default, compared with ["true"]. *)
Definition request_batch_flag (request : SimpleRequest) : bool :=
  bool_decide
    (default
       (if from_option truthy false (config self !! "is_batch_input")
        then "true" else "false")
       (formated_headers request !! lower (_BATCH_REQUEST_HEADER self))
     = "true").

(** The body of the [try] statement for request [i]. *)
Definition batch_try (i : nat) (request : SimpleRequest) : M batch_locals unit :=
  let raw_str := data request in
  update (set_batch_flag i (request_batch_flag request)) ;;
  parsed_json ← call (EvJsonLoads raw_str) (json_loads env raw_str);
  v ← lift (py_get parsed_json "instances");
  if negb (is_None v) then
    instances ← lift (py_get parsed_json "instances");
    if is_None instances then mret ()
    else
      instances ← call (EvDecodeB64 instances) (decode_b64_if_needed env instances);
      update (set_instances i instances)
  else
    w ← lift (py_get parsed_json "inputs");
    if truthy w then update (set_response i not_implemented_resp) else mret ().

(** The [except] clauses. *)
Definition batch_except (i : nat) (e : exn) : M batch_locals unit :=
  if is_parse_error e then mret ()
  else update (set_response i (internal_error_resp (format_exc env e))).

Definition batch_loop_body (i : nat) (request : SimpleRequest) : M batch_locals unit :=
  try_except (batch_try i request) (batch_except i).

Definition init_batch_locals (n : nat) : batch_locals :=
  {| instances_list := replicate n None;
     responses := replicate n bad_resp;
     batch_flags := replicate n None |}.

Definition handle_batch_request (requests : list SimpleRequest)
    : M batch_locals (list SimpleResponse) :=
  for_each batch_loop_body 0 requests ;;
  st ← get_locals;
  '(merged_instances, slices) ← lift (concat_list (instances_list st) (batch_flags st));
  parsed_tensor ← call (EvTfConstant (VList merged_instances))
                       (tf_constant env (VList merged_instances));
  merged_result ← call (EvFunc parsed_tensor) (func parsed_tensor);
  lift (to_batch_response (output_adapter self)
          merged_result slices (responses st) requests).

(** A call of [handle_batch_request]: the three slot lists are created
    with one slot per request, the log starts empty. *)
Definition run_batch (requests : list SimpleRequest)
    : list event * result (list SimpleResponse) :=
  let '((_, log), r) :=
    handle_batch_request requests (init_batch_locals (length requests)) [] in
  (log, r).

(** The decode loop alone. *)
Definition run_decode_loop (requests : list SimpleRequest)
    : (batch_locals * list event) * result unit :=
  for_each batch_loop_body 0 requests (init_batch_locals (length requests)) [].

(** *** The single-request channels *)

Definition handle_request (request : HttpRequest) : M unit HttpResponse :=
  if bool_decide (content_type request = Some "application/json") then
    input_str ← call (EvUtf8Decode (request_data request))
                     (utf8_decode env (request_data request));
    result ← in_frame None (_handle_raw_str input_str);
    lift (to_response (output_adapter self) result request)
  else
    raise (BadInput
      "Request content-type must be 'application/json' for this BentoService API").

Definition handle_cli (args : list string) : option (M unit CliResult) :=
  '(input, unknown_args) ← parse_known_args env args;
  Some (result ← in_frame None (_handle_raw_str input);
        lift (to_cli (output_adapter self) result unknown_args)).

Definition handle_aws_lambda_event (event : LambdaEvent) : M unit LambdaResponse :=
  if bool_decide (default "" (lambda_headers event !! "Content-Type") = "application/json")
  then
    result ← in_frame None (_handle_raw_str (lambda_body event));
    lift (to_aws_lambda_event (output_adapter self) result event)
  else
    content_type ← lift (dict_index (lambda_headers event) "Content-Type");
    raise (BentoMLException
      ("BentoML currently doesn't support Content-Type: " +:+ content_type
       +:+ " for AWS Lambda")).

(** *** The decode loop, request by request

    What one turn of the loop of [handle_batch_request] does depends on
    the request alone.  [decode_request] is the outcome of the [try]
    body after the batch flag is stored: the decoded instances, the
    column format, or nothing to record. *)
Inductive decoded : Type :=
  | DInstances (instances : pyval)
  | DColumn
  | DNothing.

Definition decode_request (request : SimpleRequest) : result decoded :=
  parsed_json ← json_loads env (data request);
  v ← py_get parsed_json "instances";
  if negb (is_None v) then
    instances ← decode_b64_if_needed env v;
    mret (DInstances instances)
  else
    w ← py_get parsed_json "inputs";
    mret (if truthy w then DColumn else DNothing).

(** The entry of [instances_list] for a request. *)
Definition slot_instances (request : SimpleRequest) : option pyval :=
  match decode_request request with
  | Return (DInstances v) => Some v
  | _ => None
  end.

(** The response that the loop stores for a request, if it stores one,
    and the entry of [responses] (the fallbacks) for the request. *)
Definition recorded_response (request : SimpleRequest) : option SimpleResponse :=
  match decode_request request with
  | Return DColumn => Some not_implemented_resp
  | Return _ => None
  | Raise e =>
      if is_parse_error e then None
      else Some (internal_error_resp (format_exc env e))
  end.

Definition slot_response (request : SimpleRequest) : SimpleResponse :=
  default bad_resp (recorded_response request).

(** The three stores of one turn of the loop, for an index within the
    lists. *)
Definition store_outcome (i : nat) (request : SimpleRequest) (st : batch_locals)
    : batch_locals :=
  {| instances_list :=
       match slot_instances request with
       | Some v => <[i := Some v]> (instances_list st)
       | None => instances_list st
       end;
     responses :=
       match recorded_response request with
       | Some r => <[i := r]> (responses st)
       | None => responses st
       end;
     batch_flags := <[i := Some (request_batch_flag request)]> (batch_flags st) |}.

(** Slot [i] exists in each of the three lists. *)
Definition has_slot (st : batch_locals) (i : nat) : Prop :=
  i < length (instances_list st) ∧
  i < length (responses st) ∧
  i < length (batch_flags st).

(** The calls that one turn of the loop makes. *)
Definition decode_events (request : SimpleRequest) : list event :=
  EvJsonLoads (data request) ::
  match json_loads env (data request) with
  | Return (VDict kvs) =>
      if is_None (assoc_get "instances" kvs) then []
      else [EvDecodeB64 (assoc_get "instances" kvs)]
  | _ => []
  end.

Definition loop_events (requests : list SimpleRequest) : list event :=
  concat (decode_events <$> requests).

(** The locals after the loop. *)
Definition decoded_locals (requests : list SimpleRequest) : batch_locals :=
  {| instances_list := slot_instances <$> requests;
     responses := slot_response <$> requests;
     batch_flags := (λ r, Some (request_batch_flag r)) <$> requests |}.

(** The instance path of [_handle_raw_str], for the value of the
    [instances] field. *)
Definition instances_path (v : pyval) : M (option Tensor) Output :=
  instances ← call (EvDecodeB64 v) (decode_b64_if_needed env v);
  t ← call (EvTfConstant instances) (tf_constant env instances);
  modify (fun _ => Some t) ;;
  call (EvFunc t) (func t).

(** The statuses of the fallbacks that the loop can leave in a slot. *)
Definition is_fallback (r : SimpleResponse) : Prop :=
  status r = 400%Z ∨ status r = 501%Z ∨ status r = 500%Z.

(** Request [i] of a batch has its outcome in slot [i] of the three
    lists. *)
Definition slots_hold (st : batch_locals) (i : nat) (request : SimpleRequest) : Prop :=
  instances_list st !! i = Some (slot_instances request) ∧
  responses st !! i = Some (slot_response request) ∧
  batch_flags st !! i = Some (Some (request_batch_flag request)).

(** A failure of the batch as a whole: [e] is raised by the merger, by
    the array constructor, by the model function or by the output
    adapter, after the decode loop. *)
Definition batch_level_failure (requests : list SimpleRequest) (e : exn) : Prop :=
  let st := decoded_locals requests in
  match concat_list (instances_list st) (batch_flags st) with
  | Raise e' => e' = e
  | Return (merged_instances, slices) =>
      match tf_constant env (VList merged_instances) with
      | Raise e' => e' = e
      | Return t =>
          match func t with
          | Raise e' => e' = e
          | Return merged_result =>
              to_batch_response (output_adapter self)
                merged_result slices (responses st) requests = Raise e
          end
      end
  end.

(** *** The class constants, [__init__] and [request_schema] *)

Definition BATCH_MODE_SUPPORTED : bool := true.

Definition PREDICT : string := "predict".
Definition CLASSIFY : string := "classify".
Definition REGRESS : string := "regress".
Definition METHODS : list string := [PREDICT; CLASSIFY; REGRESS].

(** [__init__(self, method=PREDICT, is_batch_input=True, **base_kwargs)]:
    an argument that is not given is [None] here.  [super_init] is the
    initializer of the base class, which receives [is_batch_input] and
    the other keyword arguments and leaves the base configuration, the
    name of the override header and the output adapter. *)
Definition __init__ {K : Type}
    (super_init : bool → K → gmap string pyval * string * OutputAdapter)
    (method : option string) (is_batch_input : option bool) (base_kwargs : K)
    : TensorflowTensorHandler :=
  let '(base, header, adapter) :=
    super_init (default true is_batch_input) base_kwargs in
  {| method := default PREDICT method;
     base_config := base;
     _BATCH_REQUEST_HEADER := header;
     output_adapter := adapter |}.

(** The [request_schema] property. *)
Definition request_schema (handler : TensorflowTensorHandler) : result pyval :=
  if bool_decide (method handler = PREDICT) then
    Return
      (VDict
         [("application/json",
           VDict
             [("schema",
               VDict
                 [("type", VStr "object");
                  ("properties",
                   VDict
                     [("signature_name",
                       VDict [("type", VStr "string"); ("default", VNone)]);
                      ("instances",
                       VDict [("type", VStr "array");
                              ("items", VDict [("type", VStr "object")]);
                              ("default", VNone)]);
                      ("inputs",
                       VDict [("type", VStr "object"); ("default", VNone)])])])])])
  else
    Raise (NotImplementedError
             ("method " +:+ method handler +:+ " is not implemented")).

(** *** The calls in a log, by callee *)

Fixpoint loads_calls (log : list event) : list string :=
  match log with
  | [] => []
  | EvJsonLoads raw :: log' => raw :: loads_calls log'
  | _ :: log' => loads_calls log'
  end.

Fixpoint decode_calls (log : list event) : list pyval :=
  match log with
  | [] => []
  | EvDecodeB64 v :: log' => v :: decode_calls log'
  | _ :: log' => decode_calls log'
  end.

Fixpoint tf_constant_calls (log : list event) : list pyval :=
  match log with
  | [] => []
  | EvTfConstant v :: log' => v :: tf_constant_calls log'
  | _ :: log' => tf_constant_calls log'
  end.

(** *** A call of [handle_batch_request], whole *)

(** A call of [handle_batch_request] with all that it leaves: the locals
    at its end, the log and the result.  [run_batch] is its log and its
    result. *)
Definition batch_call (requests : list SimpleRequest)
    : (batch_locals * list event) * result (list SimpleResponse) :=
  handle_batch_request requests (init_batch_locals (length requests)) [].

(** Lines 148 to 154 of [handle_batch_request] as a function of the
    locals that the loop leaves: merge, build the array, call the model
    function, hand its output, the ranges, the fallbacks and the
    requests to the output adapter. *)
Definition after_decoding (st : batch_locals) (requests : list SimpleRequest)
    : result (list SimpleResponse) :=
  '(merged_instances, slices) ← concat_list (instances_list st) (batch_flags st);
  parsed_tensor ← tf_constant env (VList merged_instances);
  merged_result ← func parsed_tensor;
  to_batch_response (output_adapter self)
    merged_result slices (responses st) requests.

End Handler.

Arguments Output : clear implicits.
Arguments OutputAdapter : clear implicits.
Arguments Collaborators : clear implicits.
Arguments TensorflowTensorHandler : clear implicits.
Arguments event : clear implicits.
Arguments M : clear implicits.
Arguments batch_locals : clear implicits.

(** ** A concrete setting for the examples *)

Module Sample.

(** Bodies used in the examples, each with the value that [json.loads]
    returns for it or the exception that it raises. *)
Definition quoted (s : string) : string :=
  String (ascii_of_nat 34) s +:+ String (ascii_of_nat 34) "".

Definition body_rows_12_34 : string :=
  "{" +:+ quoted "instances" +:+ ": [[1, 2], [3, 4]]}".
Definition body_row_5 : string :=
  "{" +:+ quoted "instances" +:+ ": [[5]]}".
Definition body_flat_6 : string :=
  "{" +:+ quoted "instances" +:+ ": [6]}".
Definition body_mixed_depth : string :=
  "{" +:+ quoted "instances" +:+ ": [1, [2]]}".
Definition body_malformed : string :=
  "{" +:+ quoted "instances" +:+ ": [[1, 2".
Definition body_bad_encoding : string := String (ascii_of_nat 255) "{}".
Definition body_inputs_col : string :=
  "{" +:+ quoted "inputs" +:+ ": {" +:+ quoted "x" +:+ ": [1]}}".
Definition body_inputs_empty : string :=
  "{" +:+ quoted "inputs" +:+ ": {}}".
Definition body_both : string :=
  "{" +:+ quoted "instances" +:+ ": [[7]], " +:+ quoted "inputs"
  +:+ ": {" +:+ quoted "x" +:+ ": [1]}}".
Definition body_empty_object : string := "{}".
Definition body_bare_array : string := "[[1, 2]]".

Definition ints (zs : list Z) : pyval := VList (VInt <$> zs).

Definition parsed_bodies : list (string * result pyval) :=
  [ (body_rows_12_34,
      Return (VDict [("instances", VList [ints [1; 2]; ints [3; 4]]%Z)]));
    (body_row_5, Return (VDict [("instances", VList [ints [5]%Z])]));
    (body_flat_6, Return (VDict [("instances", ints [6]%Z)]));
    (body_mixed_depth,
      Return (VDict [("instances", VList [VInt 1; ints [2]%Z])]));
    (body_malformed, Raise (JSONDecodeError "Expecting ',' delimiter"));
    (body_bad_encoding, Raise (UnicodeDecodeError "invalid start byte"));
    (body_inputs_col,
      Return (VDict [("inputs", VDict [("x", ints [1]%Z)])]));
    (body_inputs_empty, Return (VDict [("inputs", VDict [])]));
    (body_both,
      Return (VDict [("instances", VList [ints [7]%Z]);
                     ("inputs", VDict [("x", ints [1]%Z)])]));
    (body_empty_object, Return (VDict []));
    (body_bare_array, Return (VList [ints [1; 2]%Z])) ].

Fixpoint lookup_body (raw : string) (table : list (string * result pyval))
    : result pyval :=
  match table with
  | [] => Raise (JSONDecodeError "Expecting value")
  | (b, r) :: table' => if bool_decide (b = raw) then r else lookup_body raw table'
  end.

(** [json.loads] on the bodies above. *)
Definition loads (raw : string) : result pyval := lookup_body raw parsed_bodies.

(** The shape of a nest of lists of scalars, when it is rectangular. *)
Fixpoint shape (v : pyval) : option (list nat) :=
  match v with
  | VList xs =>
      match shape <$> xs with
      | [] => Some [0]
      | Some s :: rest =>
          if bool_decide (Forall (eq (Some s)) rest)
          then Some (length xs :: s) else None
      | None :: _ => None
      end
  | VNone | VDict _ => None
  | _ => Some []
  end.

(** An array constructor that, as [tf.constant] does, refuses a nest
    that is not rectangular. *)
Definition constant (v : pyval) : result pyval :=
  match shape v with
  | Some _ => Return v
  | None => Raise (ValueError "Can't convert non-rectangular Python sequence to Tensor.")
  end.

(** A model function: the identity on the rows of its argument. *)
Definition func (t : pyval) : result (list pyval) :=
  match t with
  | VList rows => Return rows
  | _ => Return []
  end.

(** A model function that reports a failure. *)
Definition failing_func (t : pyval) : result (list pyval) :=
  Raise (OtherException "RuntimeError" "model failure").

Definition decode (raw : string) : result string :=
  if bool_decide (Forall (λ c, nat_of_ascii c < 128) (list_ascii_of_string raw))
  then Return raw
  else Raise (UnicodeDecodeError "invalid start byte").

Definition exn_class (e : exn) : string :=
  match e with
  | JSONDecodeError _ => "JSONDecodeError"
  | UnicodeDecodeError _ => "UnicodeDecodeError"
  | AttributeError _ => "AttributeError"
  | TypeError _ => "TypeError"
  | ValueError _ => "ValueError"
  | KeyError _ => "KeyError"
  | IndexError _ => "IndexError"
  | NotImplementedError _ => "NotImplementedError"
  | UnboundLocalError _ => "UnboundLocalError"
  | BadInput _ => "BadInput"
  | BentoMLException _ => "BentoMLException"
  | ShapeMismatch => "ShapeMismatch"
  | OtherException cls _ => cls
  end.

Definition known_args (args : list string) : option (string * list string) :=
  match args with
  | "--input" :: input :: unknown_args => Some (input, unknown_args)
  | _ => None
  end.

(** The bodies of the examples carry no encoded-byte marker; on such
    values the nested decoder changes nothing. *)
Definition env : Collaborators pyval :=
  {| json_loads := loads;
     utf8_decode := decode;
     decode_b64_if_needed := Return;
     tf_constant := constant;
     format_exc := λ e, "Traceback (most recent call last): " +:+ exn_class e;
     parse_known_args := known_args |}.

(** An output formatter: status 200 and the number of rows of the
    slice as text. *)
Definition fmt (rows : list pyval) (request : SimpleRequest) : SimpleResponse :=
  Build_SimpleResponse 200%Z (Some []) (pretty (length rows)).

Definition adapter : OutputAdapter pyval string string string :=
  {| to_batch_response := spec_to_batch_response fmt;
     to_response := λ rows _, Return (pretty (length rows));
     to_cli := λ rows _, Return (pretty (length rows));
     to_aws_lambda_event := λ rows _, Return (pretty (length rows)) |}.

Definition handler : TensorflowTensorHandler pyval string string string :=
  {| method := "predict";
     base_config := {[ "is_batch_input" := VBool true ]};
     _BATCH_REQUEST_HEADER := "Bentoml-Is-Batch-Request";
     output_adapter := adapter |}.

Definition request (hdrs : list (string * string)) (body : string) : SimpleRequest :=
  {| formated_headers := list_to_map hdrs; data := body |}.

(** Batches of the examples. *)
Definition batch_mixed : list SimpleRequest :=
  [ request [] body_row_5;
    request [] body_malformed;
    request [("bentoml-is-batch-request", "false")] body_flat_6;
    request [] body_inputs_col;
    request [] body_bare_array;
    request [("bentoml-is-batch-request", "true")] body_both ].

Definition batch_all_bad : list SimpleRequest :=
  [ request [] body_malformed; request [] body_bad_encoding ].

Definition batch_ragged : list SimpleRequest :=
  [ request [] body_rows_12_34; request [] body_row_5 ].

Definition batch_mixed_depth : list SimpleRequest :=
  [ request [] body_mixed_depth ].

Definition batch_inputs_empty : list SimpleRequest :=
  [ request [] body_inputs_empty ].

Definition json_event (body : string) : LambdaEvent :=
  {| lambda_headers := {[ "Content-Type" := "application/json" ]};
     lambda_body := body |}.

Definition json_request (body : string) : HttpRequest :=
  {| content_type := Some "application/json"; request_data := body |}.

End Sample.

(** Further values for the examples: a nested decoder that fails on an
    undecodable byte string, the initializer of a base class that stores
    [is_batch_input] in its configuration, and more batches. *)
Module SampleMore.

Definition strict_decoder (v : pyval) : result pyval :=
  match v with
  | VList (VList (VInt 5 :: _) :: _) =>
      Raise (UnicodeDecodeError "invalid continuation byte")
  | _ => Return v
  end.

Definition strict_env : Collaborators pyval :=
  {| json_loads := Sample.loads;
     utf8_decode := Sample.decode;
     decode_b64_if_needed := strict_decoder;
     tf_constant := Sample.constant;
     format_exc := format_exc Sample.env;
     parse_known_args := Sample.known_args |}.

Definition super_init (is_batch_input : bool) (base_kwargs : unit)
    : gmap string pyval * string * OutputAdapter pyval string string string :=
  ({[ "is_batch_input" := VBool is_batch_input ]},
   "Bentoml-Is-Batch-Request", Sample.adapter).

Definition classify_handler : TensorflowTensorHandler pyval string string string :=
  __init__ super_init (Some CLASSIFY) None ().

Definition batch_header_variants : list SimpleRequest :=
  [ Sample.request [("bentoml-is-batch-request", "True")] Sample.body_row_5;
    Sample.request [("bentoml-is-batch-request", "1")] Sample.body_row_5;
    Sample.request [("Bentoml-Is-Batch-Request", "false")] Sample.body_row_5 ].

Definition batch_edge_payloads : list SimpleRequest :=
  [ Sample.request [] Sample.body_empty_object;
    Sample.request [] Sample.body_bare_array;
    Sample.request [] Sample.body_row_5;
    Sample.request [] Sample.body_inputs_empty ].

Definition text_request (body : string) : HttpRequest :=
  {| content_type := Some "application/json; charset=utf-8"; request_data := body |}.

End SampleMore.

(** ** Properties *)

Section Properties.

Context {Tensor Row HttpResponse CliResult LambdaResponse : Type}.
Context (env : Collaborators Tensor).
Context (self : TensorflowTensorHandler Row HttpResponse CliResult LambdaResponse).
Context (func : Tensor → result (Output Row)).

Implicit Types (request : SimpleRequest) (requests : list SimpleRequest).
Implicit Types (st : batch_locals) (log : list (event Tensor)).

(** *** The log *)

Lemma func_calls_app log1 log2 :
  func_calls (log1 ++ log2) = func_calls log1 ++ func_calls log2.
Proof.
  induction log1 as [|ev log1 IH]; [done|].
  destruct ev; simpl; by rewrite ?IH.
Qed.

Lemma func_calls_decode_events request :
  func_calls (decode_events env request) = [].
Proof.
  unfold decode_events. simpl.
  destruct (json_loads env (data request)) as [[]|]; try done.
  by destruct (is_None _).
Qed.

Lemma func_calls_loop_events requests :
  func_calls (loop_events env requests) = [].
Proof.
  unfold loop_events.
  induction requests as [|r rs IH]; [done|].
  rewrite fmap_cons, concat_cons, func_calls_app, func_calls_decode_events.
  by rewrite IH.
Qed.

(** *** One turn of the loop *)

Lemma py_setitem_in_range {A} i (x : A) l :
  i < length l → py_setitem i x l = Return (<[i := x]> l).
Proof. intros Hi. unfold py_setitem. by rewrite bool_decide_eq_true_2. Qed.

(** A turn of the loop for a slot that exists never raises: it stores
    the outcome of its request in slot [i] and leaves the other slots
    alone. *)
Lemma batch_loop_body_run i request st log :
  has_slot st i →
  batch_loop_body env self i request st log =
  ((store_outcome env self i request st, log ++ decode_events env request), Return ()).
Proof.
  intros (Hi & Hr & Hf).
  unfold batch_loop_body, try_except, batch_try, store_outcome, decode_events.
  unfold slot_instances, recorded_response, decode_request.
  unfold batch_except, update, set_batch_flag, set_instances, set_response.
  unfold mbind, M_bind, result_bind, call, lift, modify, mret, M_ret, result_ret.
  rewrite py_setitem_in_range by done. simpl.
  destruct (json_loads env (data request)) as [parsed|e]; simpl.
  - destruct parsed; simpl; rewrite ?py_setitem_in_range by done;
      try (by rewrite ?app_nil_r).
    destruct (assoc_get "instances" kvs) eqn:Hinst; simpl; rewrite ?Hinst; simpl;
      try (destruct (decode_b64_if_needed env _) as [v'|e'] eqn:Hd; simpl;
           [ rewrite py_setitem_in_range by done; by rewrite <- app_assoc
           | destruct (is_parse_error e'); simpl;
             rewrite ?py_setitem_in_range by done; by rewrite <- app_assoc ]).
    destruct (truthy (assoc_get "inputs" kvs)); simpl;
      rewrite ?py_setitem_in_range by done; done.
  - destruct (is_parse_error e); simpl; rewrite ?py_setitem_in_range by done; done.
Qed.

(** *** The whole loop *)

Lemma insert_first_free {A} (pre : list A) (x d : A) (rest : list A) :
  <[length pre := x]> (pre ++ d :: rest) = (pre ++ [x]) ++ rest.
Proof.
  rewrite insert_app_r_alt, Nat.sub_diag by lia.
  simpl. by rewrite <- app_assoc.
Qed.

Lemma keep_first_free {A} (pre : list A) (d : A) (rest : list A) :
  pre ++ d :: rest = (pre ++ [d]) ++ rest.
Proof. by rewrite <- app_assoc. Qed.

(** The invariant of the loop: when the turn for slot [length pi] is
    about to run, the slots before it hold the outcomes of their
    requests and the slots from it on hold the initial values. *)
Lemma for_each_decode requests :
  ∀ (pi : list (option pyval)) (pr : list SimpleResponse)
    (pf : list (option bool)) log,
    length pr = length pi → length pf = length pi →
    for_each (batch_loop_body env self) (length pi) requests
      {| instances_list := pi ++ replicate (length requests) None;
         responses := pr ++ replicate (length requests) bad_resp;
         batch_flags := pf ++ replicate (length requests) None |} log
    = (({| instances_list := pi ++ (slot_instances env <$> requests);
           responses := pr ++ (slot_response env <$> requests);
           batch_flags :=
             pf ++ ((λ r, Some (request_batch_flag self r)) <$> requests) |},
        log ++ loop_events env requests), Return ()).
Proof.
  induction requests as [|r rs IH]; intros pi pr pf log Hr Hf.
  - simpl. unfold loop_events. simpl. by rewrite !app_nil_r.
  - cbn [for_each]. unfold mbind at 1, M_bind at 1.
    rewrite batch_loop_body_run
      by (unfold has_slot; simpl; rewrite !length_app; simpl; lia).
    unfold store_outcome. cbn [instances_list responses batch_flags].
    cbn [length replicate].
    assert (Hi : match slot_instances env r with
                 | Some v => <[length pi := Some v]> (pi ++ None :: replicate (length rs) None)
                 | None => pi ++ None :: replicate (length rs) None
                 end = (pi ++ [slot_instances env r]) ++ replicate (length rs) None).
    { destruct (slot_instances env r);
        [apply insert_first_free | apply keep_first_free]. }
    assert (Hp : match recorded_response env r with
                 | Some x => <[length pi := x]> (pr ++ bad_resp :: replicate (length rs) bad_resp)
                 | None => pr ++ bad_resp :: replicate (length rs) bad_resp
                 end = (pr ++ [slot_response env r]) ++ replicate (length rs) bad_resp).
    { unfold slot_response. rewrite <- Hr.
      destruct (recorded_response env r);
        [apply insert_first_free | apply keep_first_free]. }
    assert (Hb : <[length pi := Some (request_batch_flag self r)]>
                   (pf ++ None :: replicate (length rs) None)
                 = (pf ++ [Some (request_batch_flag self r)]) ++ replicate (length rs) None).
    { rewrite <- Hf. apply insert_first_free. }
    rewrite Hi, Hp, Hb.
    replace (S (length pi)) with (length (pi ++ [slot_instances env r]))
      by (rewrite length_app; simpl; lia).
    rewrite IH by (rewrite !length_app; simpl; lia).
    unfold loop_events. rewrite !fmap_cons, concat_cons.
    by rewrite <- !app_assoc.
Qed.

(** The decode loop of a batch returns normally, whatever the requests
    are, with the outcome of request [i] in slot [i] of each list. *)
Lemma run_decode_loop_eq requests :
  run_decode_loop env self requests =
  ((decoded_locals env self requests, loop_events env requests), Return ()).
Proof.
  unfold run_decode_loop, init_batch_locals, decoded_locals.
  exact (for_each_decode requests [] [] [] [] eq_refl eq_refl).
Qed.

(** [handle_batch_request] after the loop: merge, build the array,
    call the model function, demultiplex. *)
Lemma run_batch_eq requests :
  run_batch env self func requests =
  let st := decoded_locals env self requests in
  match concat_list (instances_list st) (batch_flags st) with
  | Raise e => (loop_events env requests, Raise e)
  | Return (merged_instances, slices) =>
      match tf_constant env (VList merged_instances) with
      | Raise e =>
          (loop_events env requests ++ [EvTfConstant (VList merged_instances)],
           Raise e)
      | Return parsed_tensor =>
          (loop_events env requests
             ++ [EvTfConstant (VList merged_instances); EvFunc parsed_tensor],
           match func parsed_tensor with
           | Raise e => Raise e
           | Return merged_result =>
               to_batch_response (output_adapter self)
                 merged_result slices (responses st) requests
           end)
      end
  end.
Proof.
  unfold run_batch, handle_batch_request.
  unfold mbind at 1, M_bind at 1.
  pose proof (run_decode_loop_eq requests) as Hloop.
  unfold run_decode_loop in Hloop. rewrite Hloop.
  unfold mbind, M_bind, get_locals, lift, call. cbn zeta.
  destruct (concat_list _ _) as [[merged slices]|e]; [|done].
  destruct (tf_constant env (VList merged)) as [t|e]; [|done].
  rewrite <- app_assoc. simpl.
  by destruct (func t).
Qed.

(** *** The merger *)

(** Case analysis on one step of [concat_list_from] that returned:
    the recursive call returned too, with equation [E]. *)
Ltac merger_step H E :=
  cbn [concat_list_from] in H;
  repeat match type of H with
  | context [bool_decide ?P] => destruct (bool_decide P)
  | context [match ?v with VList _ => _ | _ => _ end] => destruct v; try discriminate H
  end;
  unfold mbind, result_bind in H;
  match type of H with
  | context [concat_list_from ?r ?l ?f] =>
      destruct (concat_list_from r l f) as [[? ?]|] eqn:E; [|discriminate H]
  end;
  simplify_eq.

Lemma concat_list_from_length lst :
  ∀ row flags datas slices,
    concat_list_from row lst flags = Return (datas, slices) →
    length flags = length lst →
    length slices = length lst.
Proof.
  induction lst as [|r lst IH]; intros row flags datas slices H Hlen.
  - destruct flags; simpl in H; by simplify_eq.
  - destruct flags as [|f flags]; [done|]. simpl in Hlen.
    destruct r as [v|]; merger_step H E; apply IH in E; simpl; auto with lia.
Qed.

(** The ranges add up to the length of the flat sequence. *)
Lemma concat_list_from_sum lst :
  ∀ row flags datas slices,
    concat_list_from row lst flags = Return (datas, slices) →
    sum_list (slice_len <$> slices) = length datas.
Proof.
  induction lst as [|r lst IH]; intros row flags datas slices H.
  - destruct flags; simpl in H; by simplify_eq.
  - destruct flags as [|f flags]; [simpl in H; by simplify_eq|].
    destruct r as [v|]; merger_step H E; apply IH in E;
      rewrite fmap_cons; cbn [sum_list sum_list_with]; unfold slice_len at 1; simpl;
      rewrite ?length_app; lia.
Qed.

(** An absent entry receives a range of length zero. *)
Lemma concat_list_from_absent lst :
  ∀ row flags datas slices i,
    concat_list_from row lst flags = Return (datas, slices) →
    length flags = length lst →
    lst !! i = Some None →
    ∃ k, slices !! i = Some (k, k).
Proof.
  induction lst as [|r lst IH]; intros row flags datas slices i H Hlen Hi; [done|].
  destruct flags as [|f flags]; [done|]. simpl in Hlen.
  destruct i as [|i]; simpl in Hi.
  - simplify_eq. merger_step H E. by exists row.
  - destruct r as [v|]; merger_step H E;
      (eapply IH in E; [|lia|done]); destruct E as [k Hk]; by exists k.
Qed.

(** When no request contributes an instance the flat sequence is empty
    and every range is empty. *)
Lemma concat_list_from_all_absent lst :
  ∀ row flags,
    Forall (eq None) lst →
    length flags = length lst →
    concat_list_from row lst flags = Return ([], replicate (length lst) (row, row)).
Proof.
  induction lst as [|r lst IH]; intros row flags Hall Hlen.
  - by destruct flags.
  - destruct flags as [|f flags]; [done|]. simpl in Hlen.
    inversion Hall as [|? ? Hr Hall']; subst.
    cbn [concat_list_from]. rewrite (IH row flags Hall') by lia.
    done.
Qed.

(** *** The demultiplexer *)

Lemma demultiplex_length fmt (merged_result : Output Row) slices :
  ∀ fallbacks requests,
    length fallbacks = length slices → length requests = length slices →
    length (demultiplex fmt merged_result slices fallbacks requests) = length slices.
Proof.
  induction slices as [|s slices IH]; intros [|f fs] [|r rs] Hf Hr;
    simpl in *; try done.
  rewrite IH; lia.
Qed.

Lemma demultiplex_lookup fmt (merged_result : Output Row) slices :
  ∀ fallbacks requests i s f r,
    slices !! i = Some s → fallbacks !! i = Some f → requests !! i = Some r →
    demultiplex fmt merged_result slices fallbacks requests !! i =
    Some (if bool_decide (slice_len s = 0) then f
          else fmt (take_slice s merged_result) r).
Proof.
  induction slices as [|s0 slices IH]; intros [|f0 fs] [|r0 rs] i s f r Hs Hf Hr;
    try done.
  destruct i as [|i]; simpl in *.
  - by simplify_eq.
  - by apply IH.
Qed.

(** With every range empty the demultiplexer returns the fallbacks. *)
Lemma demultiplex_all_empty fmt (merged_result : Output Row) :
  ∀ fallbacks requests k,
    length requests = length fallbacks →
    demultiplex fmt merged_result (replicate (length fallbacks) (k, k))
      fallbacks requests = fallbacks.
Proof.
  induction fallbacks as [|f fs IH]; intros [|r rs] k Hlen; try done.
  simpl. rewrite bool_decide_eq_true_2 by (unfold slice_len; simpl; lia).
  f_equal. apply IH. simpl in Hlen. lia.
Qed.

Lemma sum_empty_ranges n k :
  sum_list (slice_len <$> replicate n (k, k)) = 0.
Proof.
  induction n as [|n IH]; [done|].
  change (slice_len (k, k) + sum_list (slice_len <$> replicate n (k, k)) = 0).
  rewrite IH. unfold slice_len. simpl. lia.
Qed.

(** *** Slots after the loop *)

Lemma decoded_locals_slots requests i request :
  requests !! i = Some request →
  slots_hold env self (decoded_locals env self requests) i request.
Proof.
  intros Hi. unfold slots_hold, decoded_locals. simpl.
  rewrite !list_lookup_fmap, Hi. done.
Qed.

(** The result of the [try] body for a slot that exists does not depend
    on the locals or on the log it starts from. *)
Lemma batch_try_result i request st log :
  has_slot st i →
  (batch_try env self i request st log).2 = (decode_request env request ;; Return ()).
Proof.
  intros (Hi & Hr & Hf).
  unfold batch_try, decode_request, update, set_batch_flag, set_instances, set_response.
  unfold mbind, M_bind, result_bind, call, lift, modify, mret, M_ret, result_ret.
  rewrite py_setitem_in_range by done. simpl.
  destruct (json_loads env (data request)) as [parsed|e]; simpl; [|done].
  destruct parsed; simpl; try done.
  destruct (assoc_get "instances" kvs) eqn:Hinst; simpl; rewrite ?Hinst; simpl;
    try (destruct (decode_b64_if_needed env _); simpl;
         rewrite ?py_setitem_in_range by done; done).
  destruct (truthy _); simpl; rewrite ?py_setitem_in_range by done; done.
Qed.

Lemma batch_try_raises i request st log e :
  has_slot st i →
  (batch_try env self i request st log).2 = Raise e →
  decode_request env request = Raise e.
Proof.
  intros Hslot. rewrite batch_try_result by done. unfold mbind, result_bind.
  by destruct (decode_request env request); intros; simplify_eq.
Qed.

Lemma run_batch_raise_origin requests e :
  (run_batch env self func requests).2 = Raise e →
  batch_level_failure env self func requests e.
Proof.
  rewrite run_batch_eq. unfold batch_level_failure. cbn zeta.
  destruct (concat_list _ _) as [[merged slices]|e1]; simpl;
    [|by intros; simplify_eq].
  destruct (tf_constant env (VList merged)) as [t|e2]; simpl;
    [|by intros; simplify_eq].
  destruct (func t) as [r|e3]; [done|by intros; simplify_eq].
Qed.

(** *** Projections of the log, and the call as a whole *)

Lemma loads_calls_app log1 log2 :
  loads_calls (log1 ++ log2) = loads_calls log1 ++ loads_calls log2.
Proof.
  induction log1 as [|ev log1 IH]; [done|].
  destruct ev; simpl; by rewrite ?IH.
Qed.

Lemma tf_constant_calls_app log1 log2 :
  tf_constant_calls (log1 ++ log2) = tf_constant_calls log1 ++ tf_constant_calls log2.
Proof.
  induction log1 as [|ev log1 IH]; [done|].
  destruct ev; simpl; by rewrite ?IH.
Qed.

Lemma log_calls_decode_events request :
  loads_calls (decode_events env request) = [data request] ∧
  tf_constant_calls (decode_events env request) = [] ∧
  func_calls (decode_events env request) = [].
Proof.
  unfold decode_events. simpl.
  destruct (json_loads env (data request)) as [[]|]; try done.
  by destruct (is_None _).
Qed.

Lemma log_calls_loop_events requests :
  loads_calls (loop_events env requests) = data <$> requests ∧
  tf_constant_calls (loop_events env requests) = [] ∧
  func_calls (loop_events env requests) = [].
Proof.
  unfold loop_events.
  induction requests as [|r rs (IHl & IHt & IHf)]; [done|].
  destruct (log_calls_decode_events r) as (Hl & Ht & Hf).
  rewrite !fmap_cons, concat_cons.
  rewrite loads_calls_app, tf_constant_calls_app, func_calls_app.
  rewrite Hl, Ht, Hf, IHl, IHt, IHf. done.
Qed.

(** The log of a batch call: the log of the loop, then at most one call
    of the array constructor, then at most one call of the model
    function. *)
Lemma run_batch_log requests :
  ∃ tail,
    (run_batch env self func requests).1 = loop_events env requests ++ tail ∧
    loads_calls tail = [] ∧
    length (tf_constant_calls tail) ≤ 1 ∧
    length (func_calls tail) ≤ 1.
Proof.
  rewrite run_batch_eq. cbn zeta.
  destruct (concat_list _ _) as [[merged slices]|e]; simpl.
  - destruct (tf_constant env (VList merged)) as [t|e]; simpl.
    + eexists. split; [done|]. simpl. auto.
    + eexists. split; [done|]. simpl. auto.
  - exists []. rewrite app_nil_r. simpl. auto.
Qed.

Lemma run_batch_loads_calls requests :
  loads_calls (run_batch env self func requests).1 = data <$> requests.
Proof.
  destruct (run_batch_log requests) as (tail & -> & Hl & _).
  rewrite loads_calls_app, Hl, app_nil_r.
  apply log_calls_loop_events.
Qed.

(** What a call of [handle_batch_request] leaves: the locals of the
    loop, the log of [run_batch], and the result of the steps after the
    loop on those locals. *)
Lemma batch_call_eq requests :
  batch_call env self func requests =
  ((decoded_locals env self requests, (run_batch env self func requests).1),
   after_decoding env self func (decoded_locals env self requests) requests).
Proof.
  rewrite run_batch_eq. cbn zeta.
  unfold batch_call, after_decoding, handle_batch_request.
  unfold mbind at 1, M_bind at 1.
  pose proof (run_decode_loop_eq requests) as Hloop.
  unfold run_decode_loop in Hloop. rewrite Hloop.
  unfold mbind, M_bind, result_bind, get_locals, lift, call. cbn zeta.
  destruct (concat_list _ _) as [[merged slices]|e]; [|done].
  destruct (tf_constant env (VList merged)) as [t|e]; [|done].
  rewrite <- app_assoc. simpl.
  by destruct (func t).
Qed.

Lemma run_batch_result requests :
  (run_batch env self func requests).2 =
  after_decoding env self func (decoded_locals env self requests) requests.
Proof.
  pose proof (batch_call_eq requests) as Heq.
  unfold batch_call in Heq. unfold run_batch at 1.
  destruct (handle_batch_request env self func requests _ _) as [[st log] r].
  by simplify_eq.
Qed.

(** The locals with which a call of [handle_batch_request] ends are
    those that the loop leaves, and its result is that of the steps
    after the loop on them. *)
Lemma batch_call_after_loop requests :
  ∃ log,
    batch_call env self func requests =
    (((run_decode_loop env self requests).1.1, log),
     after_decoding env self func (run_decode_loop env self requests).1.1 requests).
Proof. rewrite run_decode_loop_eq. simpl. eexists. apply batch_call_eq. Qed.

(** *** Claims about the decode loop *)

(** C3.  In a call of [handle_batch_request], a request whose body
    fails to parse (malformed JSON or an undecodable byte) keeps the
    fallback [SimpleResponse(400, None, "input format error")] and has
    no entry in the list of instances, so that the merger gives it an
    empty range; and the call goes on: the loop returns normally, the
    body of every request of the batch is parsed, the locals of the call
    hold the outcome of every request in its slot, and the result of the
    call is that of the merge, the array construction, the model
    function and the output adapter on these locals. *)
Theorem parse_error_keeps_bad_resp requests i request e :
  requests !! i = Some request →
  json_loads env (data request) = Raise e →
  is_parse_error e = true →
  ∃ st log,
    batch_call env self func requests =
      ((st, log), after_decoding env self func st requests) ∧
    run_decode_loop env self requests = ((st, loop_events env requests), Return ()) ∧
    responses st !! i = Some (Build_SimpleResponse 400%Z None "input format error") ∧
    instances_list st !! i = Some None ∧
    (∀ merged slices,
       concat_list (instances_list st) (batch_flags st) = Return (merged, slices) →
       ∃ k, slices !! i = Some (k, k)) ∧
    (∀ j request', requests !! j = Some request' → slots_hold env self st j request') ∧
    loads_calls log = data <$> requests.
Proof.
  intros Hi Hloads Hparse.
  exists (decoded_locals env self requests), (run_batch env self func requests).1.
  split; [apply batch_call_eq|].
  split; [apply run_decode_loop_eq|].
  destruct (decoded_locals_slots requests i request Hi) as (Hinst & Hresp & _).
  assert (Hd : decode_request env request = Raise e).
  { unfold decode_request. by rewrite Hloads. }
  assert (Hnone : slot_instances env request = None).
  { unfold slot_instances. by rewrite Hd. }
  assert (Hbad : slot_response env request = bad_resp).
  { unfold slot_response, recorded_response. by rewrite Hd, Hparse. }
  rewrite Hnone in Hinst. rewrite Hbad in Hresp.
  split_and!; try done.
  - intros merged slices Hm.
    eapply concat_list_from_absent; [exact Hm| |exact Hinst].
    unfold decoded_locals. simpl. by rewrite !length_fmap.
  - intros j request' Hj. by apply decoded_locals_slots.
  - apply run_batch_loads_calls.
Qed.

(** C4.  In a call of [handle_batch_request], when the [try] body of a
    request (run on lists that have a slot for it, as those of the call
    do) raises an exception that is not one of the two parse errors, the
    call stores
    [SimpleResponse(500, None, "Internal Server Error: " + traceback)]
    for that request and goes on: the loop returns normally, the body of
    every request of the batch is parsed, the locals of the call hold
    the outcome of every request in its slot, and the result of the call
    is that of the merge, the array construction, the model function and
    the output adapter on these locals, so that the exception of the
    request is not the exception of the call. *)
Theorem unexpected_exception_records_500 requests i request e st0 log0 :
  requests !! i = Some request →
  has_slot st0 i →
  (batch_try env self i request st0 log0).2 = Raise e →
  is_parse_error e = false →
  ∃ st log,
    batch_call env self func requests =
      ((st, log), after_decoding env self func st requests) ∧
    run_decode_loop env self requests = ((st, loop_events env requests), Return ()) ∧
    responses st !! i =
      Some (Build_SimpleResponse 500%Z None
              ("Internal Server Error: " +:+ format_exc env e)) ∧
    instances_list st !! i = Some None ∧
    (∀ j request', requests !! j = Some request' → slots_hold env self st j request') ∧
    loads_calls log = data <$> requests.
Proof.
  intros Hi Hslot Hraise Hparse.
  apply batch_try_raises in Hraise; [|done].
  exists (decoded_locals env self requests), (run_batch env self func requests).1.
  split; [apply batch_call_eq|].
  split; [apply run_decode_loop_eq|].
  destruct (decoded_locals_slots requests i request Hi) as (Hinst & Hresp & _).
  unfold slot_instances in Hinst. unfold slot_response, recorded_response in Hresp.
  rewrite Hraise in Hinst, Hresp. rewrite Hparse in Hresp.
  split_and!; try done.
  - intros j request' Hj. by apply decoded_locals_slots.
  - apply run_batch_loads_calls.
Qed.

(** C5, amended.  A request of a batch whose payload is an object with
    a truthy [inputs] field and an [instances] field that is absent or
    null gets [SimpleResponse(501, None, "Column format 'inputs' not
    implemented")] as its fallback and no entry in the list of
    instances; the loop returns normally with the outcome of every
    request of the batch in its slot.  These are the locals of the call
    of [handle_batch_request], whose result is that of the steps after
    the loop on them. *)
Theorem truthy_inputs_records_501 requests i request kvs :
  requests !! i = Some request →
  json_loads env (data request) = Return (VDict kvs) →
  assoc_get "instances" kvs = VNone →
  truthy (assoc_get "inputs" kvs) = true →
  ∃ st log,
    run_decode_loop env self requests = ((st, log), Return ()) ∧
    responses st !! i =
      Some (Build_SimpleResponse 501%Z None "Column format 'inputs' not implemented") ∧
    instances_list st !! i = Some None ∧
    (∀ j request', requests !! j = Some request' → slots_hold env self st j request') ∧
    ∃ log', batch_call env self func requests =
              ((st, log'), after_decoding env self func st requests).
Proof.
  intros Hi Hloads Hinst Hinputs.
  exists (decoded_locals env self requests), (loop_events env requests).
  split; [apply run_decode_loop_eq|].
  destruct (decoded_locals_slots requests i request Hi) as (Hsi & Hresp & _).
  assert (Hd : decode_request env request = Return DColumn).
  { unfold decode_request. rewrite Hloads. simpl.
    unfold mbind, result_bind. rewrite Hinst. simpl. by rewrite Hinputs. }
  unfold slot_instances in Hsi. unfold slot_response, recorded_response in Hresp.
  rewrite Hd in Hsi, Hresp.
  split_and!; try done.
  - intros j request' Hj. by apply decoded_locals_slots.
  - eexists. apply batch_call_eq.
Qed.

(** C6.  In a call of [handle_batch_request], the batch flag of a
    request is [true] when the override header has the value ["true"],
    [false] when it has the value ["false"], and the truth value of the
    configured [is_batch_input] when the request does not carry the
    header; the flags so derived are those of the locals of the call,
    which it hands to the merger. *)
Theorem batch_flag_from_header requests i request :
  requests !! i = Some request →
  ∃ st log b,
    batch_call env self func requests =
      ((st, log), after_decoding env self func st requests) ∧
    batch_flags st !! i = Some (Some b) ∧
    (formated_headers request !! lower (_BATCH_REQUEST_HEADER self) = Some "true" →
     b = true) ∧
    (formated_headers request !! lower (_BATCH_REQUEST_HEADER self) = Some "false" →
     b = false) ∧
    (formated_headers request !! lower (_BATCH_REQUEST_HEADER self) = None →
     b = from_option truthy false (base_config self !! "is_batch_input") ∧
     ∀ c, base_config self !! "is_batch_input" = Some (VBool c) → b = c).
Proof.
  intros Hi.
  exists (decoded_locals env self requests), (run_batch env self func requests).1,
         (request_batch_flag self request).
  split; [apply batch_call_eq|].
  simpl. rewrite list_lookup_fmap, Hi. split; [done|].
  unfold request_batch_flag, config.
  rewrite lookup_insert_ne by done.
  split_and!.
  - by intros ->.
  - by intros ->.
  - intros ->. simpl. split.
    + by destruct (from_option truthy false _).
    + intros c ->. by destruct c.
Qed.

(** *** Claims about the batch as a whole *)

Lemma slot_response_is_fallback request :
  is_fallback (slot_response env request).
Proof.
  unfold is_fallback, slot_response, recorded_response.
  destruct (decode_request env request) as [[]|e]; simpl; auto.
  destruct (is_parse_error e); simpl; auto.
Qed.

Lemma decoded_locals_lengths requests :
  length (instances_list (decoded_locals env self requests)) = length requests ∧
  length (responses (decoded_locals env self requests)) = length requests ∧
  length (batch_flags (decoded_locals env self requests)) = length requests.
Proof. unfold decoded_locals. simpl. by rewrite !length_fmap. Qed.

(** C1, amended.  When no request of a batch contributes instances,
    the flat sequence is empty and there is no short cut: the array is
    built from the empty sequence and the model function is called
    once, on that array.  When the model function then returns an
    empty result, the batch returns the fallback of each request, one
    per request and in order, each with status 400, 501 or 500. *)
Theorem all_absent_batch_calls_func_once requests fmt t :
  Forall (eq None) (instances_list (run_decode_loop env self requests).1.1) →
  to_batch_response (output_adapter self) = spec_to_batch_response fmt →
  tf_constant env (VList []) = Return t →
  func_calls (run_batch env self func requests).1 = [t] ∧
  (func t = Return [] →
   ∃ resps,
     (run_batch env self func requests).2 = Return resps ∧
     length resps = length requests ∧
     ∀ i request, requests !! i = Some request →
       resps !! i = Some (slot_response env request) ∧
       is_fallback (slot_response env request)).
Proof.
  rewrite run_decode_loop_eq. simpl. intros Hall Hadapter Htf.
  destruct (decoded_locals_lengths requests) as (Hli & Hlr & Hlf).
  rewrite run_batch_eq. cbn zeta. unfold concat_list.
  rewrite concat_list_from_all_absent by (try done; simpl; by rewrite !length_fmap).
  rewrite Htf. simpl. split.
  - by rewrite func_calls_app, func_calls_loop_events.
  - intros ->. rewrite Hadapter. unfold spec_to_batch_response.
    rewrite bool_decide_eq_true_2 by by rewrite sum_empty_ranges.
    replace (length (slot_instances env <$> requests))
      with (length (slot_response env <$> requests)) by by rewrite !length_fmap.
    rewrite demultiplex_all_empty by by rewrite length_fmap.
    eexists. split; [done|]. split; [by rewrite length_fmap|].
    intros i request Hi. split; [|apply slot_response_is_fallback].
    by rewrite list_lookup_fmap, Hi.
Qed.

(** C2, amended.  When the merge of a batch of N requests succeeds,
    the array is built, and the model function returns a result with
    as many rows as the flat sequence has elements, the batch returns
    N responses.  Response [i] is determined by request [i]: it is the
    fallback of request [i] when its range is empty, and otherwise the
    slice of the combined result at the range of request [i], formatted
    for request [i]; a request that contributed no instances gets its
    fallback. *)
Theorem batch_responses_follow_requests requests fmt merged slices t r :
  to_batch_response (output_adapter self) = spec_to_batch_response fmt →
  concat_list (instances_list (run_decode_loop env self requests).1.1)
              (batch_flags (run_decode_loop env self requests).1.1)
    = Return (merged, slices) →
  tf_constant env (VList merged) = Return t →
  func t = Return r →
  length r = length merged →
  ∃ resps,
    (run_batch env self func requests).2 = Return resps ∧
    length resps = length requests ∧
    ∀ i request, requests !! i = Some request →
      ∃ s, slices !! i = Some s ∧
        ((slice_len s = 0 ∧ resps !! i = Some (slot_response env request)) ∨
         (slice_len s ≠ 0 ∧ resps !! i = Some (fmt (take_slice s r) request))) ∧
        (slot_instances env request = None →
         resps !! i = Some (slot_response env request)).
Proof.
  rewrite run_decode_loop_eq. simpl. intros Hadapter Hmerge Htf Hfunc Hlen.
  destruct (decoded_locals_lengths requests) as (Hli & Hlr & Hlf).
  simpl in Hli, Hlr, Hlf.
  pose proof (concat_list_from_length _ _ _ _ _ Hmerge
                ltac:(by rewrite !length_fmap)) as Hls.
  rewrite length_fmap in Hls.
  pose proof (concat_list_from_sum _ _ _ _ _ Hmerge) as Hsum.
  rewrite run_batch_eq. cbn zeta. simpl. rewrite Hmerge, Htf, Hfunc. simpl.
  rewrite Hadapter. unfold spec_to_batch_response.
  rewrite bool_decide_eq_true_2 by lia.
  eexists. split; [done|]. split.
  { rewrite demultiplex_length; rewrite ?length_fmap; lia. }
  intros i request Hi.
  destruct (lookup_lt_is_Some_2 slices i) as [s Hs].
  { rewrite Hls. by eapply lookup_lt_Some. }
  exists s. split; [done|].
  assert (Hdm : demultiplex fmt r slices (slot_response env <$> requests) requests !! i
                = Some (if bool_decide (slice_len s = 0) then slot_response env request
                        else fmt (take_slice s r) request)).
  { apply demultiplex_lookup; try done. by rewrite list_lookup_fmap, Hi. }
  split.
  - rewrite Hdm. case_bool_decide; [left|right]; done.
  - intros Hnone.
    assert (Habs : ∃ k, slices !! i = Some (k, k)).
    { eapply concat_list_from_absent; [exact Hmerge| |].
      - by rewrite !length_fmap.
      - by rewrite list_lookup_fmap, Hi, <- Hnone. }
    destruct Habs as [k Hk]. rewrite Hdm.
    assert (Hsk : Some s = Some (k, k)) by (rewrite <- Hs; exact Hk).
    simplify_eq.
    rewrite bool_decide_eq_true_2; [done|]. unfold slice_len. simpl. lia.
Qed.

(** C8, amended.  When the merge of a batch succeeds and the array is
    built from the flat sequence, the model function is called exactly
    once, with that array as its argument, and what the batch returns
    is what the output adapter returns for the output of the model
    function, the ranges, the fallbacks and the requests. *)
Theorem func_called_once_on_merged_array requests merged slices t :
  concat_list (instances_list (run_decode_loop env self requests).1.1)
              (batch_flags (run_decode_loop env self requests).1.1)
    = Return (merged, slices) →
  tf_constant env (VList merged) = Return t →
  func_calls (run_batch env self func requests).1 = [t] ∧
  (run_batch env self func requests).2 =
    (merged_result ← func t;
     to_batch_response (output_adapter self) merged_result slices
       (responses (run_decode_loop env self requests).1.1) requests).
Proof.
  rewrite run_decode_loop_eq. simpl. intros Hmerge Htf.
  rewrite run_batch_eq. cbn zeta. simpl. rewrite Hmerge, Htf. simpl. split.
  - by rewrite func_calls_app, func_calls_loop_events.
  - done.
Qed.

(** When the merge or the construction of the array fails, the batch
    fails with that exception and the model function is not called. *)
Lemma func_not_called_without_array requests :
  (∀ merged slices t,
     concat_list (instances_list (decoded_locals env self requests))
                 (batch_flags (decoded_locals env self requests))
       = Return (merged, slices) →
     tf_constant env (VList merged) ≠ Return t) →
  func_calls (run_batch env self func requests).1 = [] ∧
  ∃ e, (run_batch env self func requests).2 = Raise e.
Proof.
  intros Hno. rewrite run_batch_eq. cbn zeta.
  destruct (concat_list _ _) as [[merged slices]|e] eqn:Hm; simpl.
  - destruct (tf_constant env (VList merged)) as [t|e] eqn:Ht.
    + by destruct (Hno merged slices t).
    + simpl. rewrite func_calls_app, func_calls_loop_events. eauto.
  - rewrite func_calls_loop_events. eauto.
Qed.

(** *** Claims about the single-request channels *)

Ltac run_monad :=
  unfold mbind, M_bind, result_bind, call, lift, modify, raise, in_frame,
    read_parsed_tensor, mret, M_ret, result_ret; simpl.

(** An object payload with a non-null [instances] goes down the
    instance path, whatever else it holds. *)
Lemma _handle_raw_str_instances raw kvs log :
  json_loads env raw = Return (VDict kvs) →
  is_None (assoc_get "instances" kvs) = false →
  _handle_raw_str env func raw None log =
  instances_path env func (assoc_get "instances" kvs) None (log ++ [EvJsonLoads raw]).
Proof.
  intros Hloads Hinst. unfold _handle_raw_str, instances_path. run_monad.
  rewrite Hloads. simpl. rewrite Hinst. simpl.
  destruct (decode_b64_if_needed env _) as [v'|e]; [|done].
  by destruct (tf_constant env v') as [t|e].
Qed.

(** An object payload with neither field leaves [parsed_tensor]
    unassigned. *)
Lemma _handle_raw_str_unbound raw kvs log :
  json_loads env raw = Return (VDict kvs) →
  assoc_get "instances" kvs = VNone →
  truthy (assoc_get "inputs" kvs) = false →
  _handle_raw_str env func raw None log =
  ((None, log ++ [EvJsonLoads raw]), Raise (UnboundLocalError "parsed_tensor")).
Proof.
  intros Hloads Hinst Hinputs. unfold _handle_raw_str. run_monad.
  rewrite Hloads. simpl. rewrite Hinst. simpl. by rewrite Hinputs.
Qed.

(** C9, amended.  For a payload that parses as a JSON object in which
    [instances] is absent or null and [inputs] is absent or falsy,
    [_handle_raw_str] makes no call but the one to the JSON parser and
    fails with the error of reading the unassigned local
    [parsed_tensor]; the model function is not called.  [handle_request]
    (for a request of content type application/json whose body
    decodes), [handle_cli] (for arguments that the parser accepts) and
    [handle_aws_lambda_event] (for an event of content type
    application/json) fail with that same error. *)
Theorem object_without_instances_or_inputs_unbound_local raw kvs :
  json_loads env raw = Return (VDict kvs) →
  assoc_get "instances" kvs = VNone →
  truthy (assoc_get "inputs" kvs) = false →
  _handle_raw_str env func raw None [] =
    ((None, [EvJsonLoads raw]), Raise (UnboundLocalError "parsed_tensor")) ∧
  (∀ request : HttpRequest,
     content_type request = Some "application/json" →
     utf8_decode env (request_data request) = Return raw →
     handle_request env self func request () [] =
       (((), [EvUtf8Decode (request_data request); EvJsonLoads raw]),
        Raise (UnboundLocalError "parsed_tensor"))) ∧
  (∀ args unknown_args,
     parse_known_args env args = Some (raw, unknown_args) →
     ∃ m, handle_cli env self func args = Some m ∧
          m () [] = (((), [EvJsonLoads raw]), Raise (UnboundLocalError "parsed_tensor"))) ∧
  (∀ event,
     lambda_headers event !! "Content-Type" = Some "application/json" →
     lambda_body event = raw →
     handle_aws_lambda_event env self func event () [] =
       (((), [EvJsonLoads raw]), Raise (UnboundLocalError "parsed_tensor"))).
Proof.
  intros Hloads Hinst Hinputs.
  pose proof (λ log, _handle_raw_str_unbound raw kvs log Hloads Hinst Hinputs) as Hraw.
  split_and!.
  - apply Hraw.
  - intros request Hct Hdec. unfold handle_request.
    rewrite bool_decide_eq_true_2 by done. run_monad.
    rewrite Hdec. by rewrite Hraw.
  - intros args unknown_args Hargs. unfold handle_cli. rewrite Hargs. simpl.
    eexists. split; [done|]. run_monad. by rewrite Hraw.
  - intros event Hct <-. unfold handle_aws_lambda_event. rewrite Hct. simpl.
    run_monad. by rewrite Hraw.
Qed.

(** C10.  For a payload that parses as a JSON object with a non-null
    [instances] field, the [instances] path is taken whatever the
    [inputs] field holds.  [_handle_raw_str] continues with the value of
    [instances] alone (decode, build the array, call the model
    function), so its [raise NotImplementedError] is not reached; in a
    call of [handle_batch_request] the entries that the call holds for a
    request with this body, and hands to the merger and to the output
    adapter, are those of the value of [instances] alone, and its
    fallback is not the 501 response.  A 501 response is the fallback of
    a request in a call of [handle_batch_request] only if its payload is
    an object whose [instances] is absent or null (and whose [inputs] is
    truthy). *)
Theorem instances_field_wins_over_inputs raw kvs :
  json_loads env raw = Return (VDict kvs) →
  is_None (assoc_get "instances" kvs) = false →
  (∀ log,
     _handle_raw_str env func raw None log =
     instances_path env func (assoc_get "instances" kvs) None
       (log ++ [EvJsonLoads raw])) ∧
  (∀ requests i request,
     requests !! i = Some request → data request = raw →
     ∃ st log,
       batch_call env self func requests =
         ((st, log), after_decoding env self func st requests) ∧
       let decoding := decode_b64_if_needed env (assoc_get "instances" kvs) in
       instances_list st !! i =
         Some (match decoding with Return v => Some v | Raise _ => None end) ∧
       responses st !! i =
         Some (match decoding with
               | Return _ => bad_resp
               | Raise e =>
                   if is_parse_error e then bad_resp
                   else internal_error_resp (format_exc env e)
               end) ∧
       responses st !! i ≠ Some not_implemented_resp) ∧
  (∀ requests i request,
     requests !! i = Some request →
     ∃ st log,
       batch_call env self func requests =
         ((st, log), after_decoding env self func st requests) ∧
       (responses st !! i = Some not_implemented_resp →
        ∃ kvs', json_loads env (data request) = Return (VDict kvs') ∧
                assoc_get "instances" kvs' = VNone ∧
                truthy (assoc_get "inputs" kvs') = true)).
Proof.
  intros Hloads Hinst. split_and!.
  - intros log. by apply _handle_raw_str_instances.
  - intros requests i request Hi Hdata.
    exists (decoded_locals env self requests), (run_batch env self func requests).1.
    split; [apply batch_call_eq|]. cbn zeta. simpl.
    rewrite !list_lookup_fmap, Hi. simpl.
    unfold slot_instances, slot_response, recorded_response, decode_request.
    rewrite Hdata, Hloads. simpl. unfold mbind, result_bind. rewrite Hinst. simpl.
    destruct (decode_b64_if_needed env _) as [v|e]; simpl.
    + split_and!; done.
    + destruct (is_parse_error e); simpl; split_and!; done.
  - intros requests i request Hi.
    exists (decoded_locals env self requests), (run_batch env self func requests).1.
    split; [apply batch_call_eq|]. simpl.
    rewrite list_lookup_fmap, Hi. simpl.
    unfold slot_response, recorded_response, decode_request.
    destruct (json_loads env (data request)) as [parsed|e]; simpl.
    + destruct parsed; simpl; try done.
      unfold mbind, result_bind.
      destruct (is_None (assoc_get "instances" kvs0)) eqn:Hn; simpl.
      * destruct (truthy (assoc_get "inputs" kvs0)) eqn:Ht; simpl; [|done].
        intros _. exists kvs0. split_and!; try done.
        by destruct (assoc_get "instances" kvs0).
      * destruct (decode_b64_if_needed env _) as [v|e]; simpl; [done|].
        by destruct (is_parse_error e).
    + by destruct (is_parse_error e).
Qed.

(** The HTTP channel refuses any request whose content type is not
    application/json before it touches the body. *)
Lemma handle_request_rejects_content_type (request : HttpRequest) log :
  content_type request ≠ Some "application/json" →
  handle_request env self func request () log =
  (((), log),
   Raise (BadInput
     "Request content-type must be 'application/json' for this BentoService API")).
Proof.
  intros Hct. unfold handle_request. by rewrite bool_decide_eq_false_2.
Qed.

(** The serverless channel refuses an event that declares another
    content type before it touches the body. *)
Lemma handle_aws_lambda_event_rejects_content_type event ct log :
  lambda_headers event !! "Content-Type" = Some ct →
  ct ≠ "application/json" →
  handle_aws_lambda_event env self func event () log =
  (((), log),
   Raise (BentoMLException
     ("BentoML currently doesn't support Content-Type: " +:+ ct +:+ " for AWS Lambda"))).
Proof.
  intros Hct Hne. unfold handle_aws_lambda_event, dict_index. rewrite Hct. simpl.
  by rewrite bool_decide_eq_false_2.
Qed.

(** C7.  An event of the serverless channel that carries no
    Content-Type header is refused before its body is touched, but
    with the [KeyError] of the lookup made while the message of the
    intended [BentoMLException] is built. *)
Theorem lambda_event_without_content_type_raises_KeyError event log :
  lambda_headers event !! "Content-Type" = None →
  handle_aws_lambda_event env self func event () log =
  (((), log), Raise (KeyError "Content-Type")).
Proof.
  intros Hct. unfold handle_aws_lambda_event, dict_index. by rewrite Hct.
Qed.

End Properties.

(** ** The theorems at work on concrete batches and payloads *)

Section Examples.

Import Sample.

Local Abbreviation run := (run_batch env handler func).
Local Abbreviation loop := (run_decode_loop env handler).

(** C1: a batch of two requests, one with malformed JSON and one with
    an undecodable byte.  No request contributes instances, and the
    model function is called all the same, on the array built from the
    empty sequence. *)
Lemma all_bad_batch_calls_func :
  Forall (eq None) (instances_list (loop batch_all_bad).1.1) ∧
  func_calls (run batch_all_bad).1 = [VList []] ∧
  (run batch_all_bad).2 = Return [bad_resp; bad_resp].
Proof. vm_compute. split; [by repeat constructor|done]. Qed.

Lemma all_absent_batch_calls_func_once_witness :
  func_calls (run batch_all_bad).1 = [VList []] ∧
  ∃ resps,
    (run batch_all_bad).2 = Return resps ∧
    length resps = length batch_all_bad ∧
    ∀ i request, batch_all_bad !! i = Some request →
      resps !! i = Some (slot_response env request) ∧
      is_fallback (slot_response env request).
Proof.
  assert (Hall : Forall (eq None) (instances_list (loop batch_all_bad).1.1)).
  { vm_compute. by repeat constructor. }
  destruct (all_absent_batch_calls_func_once env handler func batch_all_bad fmt
              (VList []) Hall eq_refl eq_refl) as [Hcalls Hresps].
  split; [exact Hcalls|exact (Hresps eq_refl)].
Defined.

(** C2: two requests that are each well formed, with rows of different
    widths.  The array cannot be built and the batch returns no
    responses at all. *)
Lemma ragged_batch_returns_no_responses :
  (run batch_ragged).2 =
    Raise (ValueError "Can't convert non-rectangular Python sequence to Tensor.") ∧
  ¬ ∃ resps, (run batch_ragged).2 = Return resps ∧ length resps = length batch_ragged.
Proof.
  split; [by vm_compute|].
  intros (resps & Hr & _). vm_compute in Hr. discriminate Hr.
Qed.

Lemma batch_responses_follow_requests_witness :
  ∃ resps,
    (run batch_mixed).2 = Return resps ∧
    length resps = length batch_mixed ∧
    ∀ i request, batch_mixed !! i = Some request →
      ∃ s, [(0, 1); (1, 1); (1, 2); (2, 2); (2, 2); (2, 3)] !! i = Some s ∧
        ((slice_len s = 0 ∧ resps !! i = Some (slot_response env request)) ∨
         (slice_len s ≠ 0 ∧
          resps !! i =
            Some (fmt (take_slice s [ints [5]; ints [6]; ints [7]]%Z) request))) ∧
        (slot_instances env request = None →
         resps !! i = Some (slot_response env request)).
Proof.
  apply (batch_responses_follow_requests env handler func batch_mixed fmt
           [ints [5]; ints [6]; ints [7]]%Z
           [(0, 1); (1, 1); (1, 2); (2, 2); (2, 2); (2, 3)]
           (VList [ints [5]; ints [6]; ints [7]]%Z)
           [ints [5]; ints [6]; ints [7]]%Z);
    reflexivity.
Defined.

Lemma parse_error_keeps_bad_resp_witness :
  ∃ st log,
    batch_call env handler func batch_mixed =
      ((st, log), after_decoding env handler func st batch_mixed) ∧
    run_decode_loop env handler batch_mixed
      = ((st, loop_events env batch_mixed), Return ()) ∧
    responses st !! 1 = Some (Build_SimpleResponse 400%Z None "input format error") ∧
    instances_list st !! 1 = Some None ∧
    (∀ merged slices,
       concat_list (instances_list st) (batch_flags st) = Return (merged, slices) →
       ∃ k, slices !! 1 = Some (k, k)) ∧
    (∀ j request', batch_mixed !! j = Some request' →
                   slots_hold env handler st j request') ∧
    loads_calls log = data <$> batch_mixed.
Proof.
  apply (parse_error_keeps_bad_resp env handler func batch_mixed 1
           (request [] body_malformed) (JSONDecodeError "Expecting ',' delimiter"));
    reflexivity.
Defined.

Lemma unexpected_exception_records_500_witness :
  ∃ st log,
    batch_call env handler func batch_mixed =
      ((st, log), after_decoding env handler func st batch_mixed) ∧
    run_decode_loop env handler batch_mixed
      = ((st, loop_events env batch_mixed), Return ()) ∧
    responses st !! 4 =
      Some (Build_SimpleResponse 500%Z None
              "Internal Server Error: Traceback (most recent call last): AttributeError") ∧
    instances_list st !! 4 = Some None ∧
    (∀ j request', batch_mixed !! j = Some request' →
                   slots_hold env handler st j request') ∧
    loads_calls log = data <$> batch_mixed.
Proof.
  apply (unexpected_exception_records_500 env handler func batch_mixed 4
           (request [] body_bare_array)
           (AttributeError "object has no attribute 'get'")
           (init_batch_locals (length batch_mixed)) []);
    try reflexivity.
  unfold has_slot. simpl. lia.
Defined.

(** C5: a request whose payload has an [inputs] field that is an empty
    object, and no [instances] field.  Its fallback stays the 400
    response. *)
Lemma empty_inputs_keeps_400 :
  json_loads env body_inputs_empty = Return (VDict [("inputs", VDict [])]) ∧
  responses (loop batch_inputs_empty).1.1 !! 0 =
    Some (Build_SimpleResponse 400%Z None "input format error") ∧
  responses (loop batch_inputs_empty).1.1 !! 0 ≠ Some not_implemented_resp.
Proof. by vm_compute. Qed.

Lemma truthy_inputs_records_501_witness :
  ∃ st log,
    loop batch_mixed = ((st, log), Return ()) ∧
    responses st !! 3 =
      Some (Build_SimpleResponse 501%Z None "Column format 'inputs' not implemented") ∧
    instances_list st !! 3 = Some None ∧
    (∀ j request', batch_mixed !! j = Some request' →
                   slots_hold env handler st j request') ∧
    ∃ log', batch_call env handler func batch_mixed =
              ((st, log'), after_decoding env handler func st batch_mixed).
Proof.
  apply (truthy_inputs_records_501 env handler func batch_mixed 3
           (request [] body_inputs_col) [("inputs", VDict [("x", ints [1]%Z)])]);
    reflexivity.
Defined.

Lemma batch_flag_from_header_witness :
  ∃ st log,
    batch_call env handler func batch_mixed =
      ((st, log), after_decoding env handler func st batch_mixed) ∧
    batch_flags st !! 0 = Some (Some true) ∧
    batch_flags st !! 2 = Some (Some false) ∧
    batch_flags st !! 5 = Some (Some true).
Proof.
  destruct (batch_flag_from_header env handler func batch_mixed 0 _ eq_refl)
    as (st & log & b0 & Hcall & Hb0 & _ & _ & Habsent).
  destruct (batch_flag_from_header env handler func batch_mixed 2 _ eq_refl)
    as (st2 & log2 & b2 & Hcall2 & Hb2 & _ & Hfalse & _).
  destruct (batch_flag_from_header env handler func batch_mixed 5 _ eq_refl)
    as (st5 & log5 & b5 & Hcall5 & Hb5 & Htrue & _ & _).
  destruct (Habsent eq_refl) as [_ Hconfig].
  rewrite (Hconfig true eq_refl) in Hb0.
  rewrite (Hfalse eq_refl) in Hb2.
  rewrite (Htrue eq_refl) in Hb5.
  assert (Hst2 : st2 = st) by (rewrite Hcall in Hcall2; by injection Hcall2).
  assert (Hst5 : st5 = st) by (rewrite Hcall in Hcall5; by injection Hcall5).
  rewrite Hst2 in Hb2. rewrite Hst5 in Hb5.
  exists st, log. split_and!; assumption.
Defined.

(** C8: one request whose instances mix a scalar and a list.  The
    array cannot be built, and the model function is not called. *)
Lemma mixed_depth_batch_never_calls_func :
  func_calls (run batch_mixed_depth).1 = [] ∧
  (run batch_mixed_depth).2 =
    Raise (ValueError "Can't convert non-rectangular Python sequence to Tensor.").
Proof. by vm_compute. Qed.

Lemma func_called_once_on_merged_array_witness :
  func_calls (run batch_mixed).1 = [VList [ints [5]; ints [6]; ints [7]]%Z] ∧
  (run batch_mixed).2 =
    (merged_result ← func (VList [ints [5]; ints [6]; ints [7]]%Z);
     to_batch_response (output_adapter handler) merged_result
       [(0, 1); (1, 1); (1, 2); (2, 2); (2, 2); (2, 3)]
       (responses (loop batch_mixed).1.1) batch_mixed).
Proof.
  apply (func_called_once_on_merged_array env handler func batch_mixed
           [ints [5]; ints [6]; ints [7]]%Z
           [(0, 1); (1, 1); (1, 2); (2, 2); (2, 2); (2, 3)]);
    reflexivity.
Defined.

(** C9: a payload that is a JSON array.  It parses, it has neither
    field, and [_handle_raw_str] fails on [parsed_json.get] with an
    [AttributeError], not on the unassigned local. *)
Lemma bare_array_raises_AttributeError :
  json_loads env body_bare_array = Return (VList [ints [1; 2]%Z]) ∧
  _handle_raw_str env func body_bare_array None [] =
    ((None, [EvJsonLoads body_bare_array]),
     Raise (AttributeError "object has no attribute 'get'")) ∧
  (_handle_raw_str env func body_bare_array None []).2
    ≠ Raise (UnboundLocalError "parsed_tensor").
Proof. by vm_compute. Qed.

Lemma object_without_instances_or_inputs_unbound_local_witness :
  _handle_raw_str env func body_empty_object None [] =
    ((None, [EvJsonLoads body_empty_object]),
     Raise (UnboundLocalError "parsed_tensor")) ∧
  handle_request env handler func (json_request body_empty_object) () [] =
    (((), [EvUtf8Decode body_empty_object; EvJsonLoads body_empty_object]),
     Raise (UnboundLocalError "parsed_tensor")) ∧
  (∃ m, handle_cli env handler func ["--input"; body_empty_object; "--quiet"] = Some m ∧
        m () [] = (((), [EvJsonLoads body_empty_object]),
                   Raise (UnboundLocalError "parsed_tensor"))) ∧
  handle_aws_lambda_event env handler func (json_event body_empty_object) () [] =
    (((), [EvJsonLoads body_empty_object]), Raise (UnboundLocalError "parsed_tensor")).
Proof.
  destruct (object_without_instances_or_inputs_unbound_local env handler func
              body_empty_object [] eq_refl eq_refl eq_refl)
    as (Hraw & Hhttp & Hcli & Hlambda).
  split_and!.
  - exact Hraw.
  - apply (Hhttp (json_request body_empty_object)); reflexivity.
  - apply (Hcli _ ["--quiet"]). reflexivity.
  - apply (Hlambda (json_event body_empty_object)); reflexivity.
Defined.

Lemma instances_field_wins_over_inputs_witness :
  _handle_raw_str env func body_both None [] =
    ((Some (VList [ints [7]%Z]),
      [EvJsonLoads body_both; EvDecodeB64 (VList [ints [7]%Z]);
       EvTfConstant (VList [ints [7]%Z]); EvFunc (VList [ints [7]%Z])]),
     Return [ints [7]%Z]) ∧
  ∃ st log,
    batch_call env handler func batch_mixed =
      ((st, log), after_decoding env handler func st batch_mixed) ∧
    instances_list st !! 5 = Some (Some (VList [ints [7]%Z])) ∧
    responses st !! 5 ≠ Some not_implemented_resp.
Proof.
  destruct (instances_field_wins_over_inputs env handler func body_both
              [("instances", VList [ints [7]%Z]);
               ("inputs", VDict [("x", ints [1]%Z)])] eq_refl eq_refl)
    as (Hraw & Hbatch & _).
  split.
  - rewrite (Hraw []). reflexivity.
  - destruct (Hbatch batch_mixed 5 _ eq_refl eq_refl)
      as (st & log & Hcall & Hi & _ & Hr).
    exists st, log. split_and!; [exact Hcall|exact Hi|exact Hr].
Defined.

(** C7: an event without a Content-Type header, with a body that is a
    valid payload. *)
Lemma lambda_event_without_content_type_raises_KeyError_witness :
  handle_aws_lambda_event env handler func
    {| lambda_headers := ∅; lambda_body := body_row_5 |} () [] =
  (((), []), Raise (KeyError "Content-Type")).
Proof.
  apply (lambda_event_without_content_type_raises_KeyError env handler func
           {| lambda_headers := ∅; lambda_body := body_row_5 |} []).
  reflexivity.
Defined.

(** A model function that fails is still called once, and its failure
    is the failure of the batch. *)
Example failing_func_is_called_once :
  run_batch env handler failing_func batch_mixed =
  (loop_events env batch_mixed
     ++ [EvTfConstant (VList [ints [5]; ints [6]; ints [7]]%Z);
         EvFunc (VList [ints [5]; ints [6]; ints [7]]%Z)],
   Raise (OtherException "RuntimeError" "model failure")).
Proof. by vm_compute. Qed.

(** The two channels on a declared content type that is not
    application/json. *)
Example declared_text_plain_is_refused :
  handle_request env handler func
    {| content_type := Some "text/plain"; request_data := body_row_5 |} () [] =
    (((), []),
     Raise (BadInput
       "Request content-type must be 'application/json' for this BentoService API")) ∧
  handle_aws_lambda_event env handler func
    {| lambda_headers := {[ "Content-Type" := "text/plain" ]};
       lambda_body := body_row_5 |} () [] =
    (((), []),
     Raise (BentoMLException
       "BentoML currently doesn't support Content-Type: text/plain for AWS Lambda")).
Proof.
  split.
  - by apply handle_request_rejects_content_type.
  - by apply (handle_aws_lambda_event_rejects_content_type _ _ _ _ "text/plain").
Qed.

End Examples.

(** ** Further properties of the handler *)

Section MoreProperties.

Context {Tensor Row HttpResponse CliResult LambdaResponse : Type}.
Context (env : Collaborators Tensor).
Context (self : TensorflowTensorHandler Row HttpResponse CliResult LambdaResponse).
Context (func : Tensor → result (Output Row)).

Implicit Types (request : SimpleRequest) (requests : list SimpleRequest).
Implicit Types (st : batch_locals) (log : list (event Tensor)).

(** *** The batch pipeline *)

(** X1.  In a batch call the JSON parser is called exactly once for each
    request, in the order of the requests and on the body of the
    request, whatever happens to the requests before it and to the
    batch after the loop. *)
Theorem batch_parses_each_body_once requests :
  loads_calls (run_batch env self func requests).1 = data <$> requests.
Proof.
  destruct (run_batch_log env self func requests) as (tail & -> & Hl & _).
  rewrite loads_calls_app, Hl, app_nil_r.
  apply log_calls_loop_events.
Qed.

(** X2.  In a batch call neither the array constructor nor the model
    function is called while the requests are decoded, and each of them
    is called at most once in the whole call. *)
Theorem batch_builds_and_calls_at_most_once requests :
  tf_constant_calls (run_decode_loop env self requests).1.2 = [] ∧
  func_calls (run_decode_loop env self requests).1.2 = [] ∧
  length (tf_constant_calls (run_batch env self func requests).1) ≤ 1 ∧
  length (func_calls (run_batch env self func requests).1) ≤ 1.
Proof.
  rewrite run_decode_loop_eq. simpl.
  destruct (log_calls_loop_events env requests) as (_ & Ht & Hf).
  destruct (run_batch_log env self func requests) as (tail & -> & _ & Htt & Hft).
  rewrite tf_constant_calls_app, func_calls_app, Ht, Hf. done.
Qed.

(** X3.  The override header is compared with the exact text ["true"]:
    a request that carries the header with any other value (["True"],
    ["1"], ...) has batch flag [false], whatever [is_batch_input] is
    configured to.  The flags after the loop are those with which the
    call of [handle_batch_request] goes on to the merger. *)
Theorem batch_flag_header_is_exact requests i request value :
  requests !! i = Some request →
  formated_headers request !! lower (_BATCH_REQUEST_HEADER self) = Some value →
  value ≠ "true" →
  batch_flags (run_decode_loop env self requests).1.1 !! i = Some (Some false) ∧
  (∃ log,
     batch_call env self func requests =
     (((run_decode_loop env self requests).1.1, log),
      after_decoding env self func (run_decode_loop env self requests).1.1 requests)).
Proof.
  intros Hi Hhdr Hne. split; [|apply batch_call_after_loop].
  rewrite run_decode_loop_eq. simpl.
  rewrite list_lookup_fmap, Hi. simpl. do 2 f_equal.
  unfold request_batch_flag. rewrite Hhdr. simpl.
  by apply bool_decide_eq_false_2.
Qed.

(** X4.  A request of a batch whose payload is an object in which
    [instances] is absent or null and [inputs] is absent or falsy is not
    an error of its own: it contributes no instances and its fallback
    is the 400 response that every slot starts with.  The lists after
    the loop are those with which the call of [handle_batch_request]
    goes on. *)
Theorem batch_object_without_fields_gets_400 requests i request kvs :
  requests !! i = Some request →
  json_loads env (data request) = Return (VDict kvs) →
  assoc_get "instances" kvs = VNone →
  truthy (assoc_get "inputs" kvs) = false →
  (instances_list (run_decode_loop env self requests).1.1 !! i = Some None ∧
   responses (run_decode_loop env self requests).1.1 !! i =
     Some (Build_SimpleResponse 400%Z None "input format error")) ∧
  (∃ log,
     batch_call env self func requests =
     (((run_decode_loop env self requests).1.1, log),
      after_decoding env self func (run_decode_loop env self requests).1.1 requests)).
Proof.
  intros Hi Hloads Hinst Hinputs. split; [|apply batch_call_after_loop].
  rewrite run_decode_loop_eq. simpl.
  rewrite !list_lookup_fmap, Hi. simpl.
  unfold slot_instances, slot_response, recorded_response, decode_request.
  rewrite Hloads. simpl. unfold mbind, result_bind. rewrite Hinst. simpl.
  by rewrite Hinputs.
Qed.

(** X5.  A request of a batch whose body parses to a value that is not
    an object (an array, a string, a number, a boolean, null) is
    answered with the 500 response that carries the traceback of the
    [AttributeError] of [parsed_json.get], not with the 400 response,
    and contributes no instances.  The lists after the loop are those
    with which the call of [handle_batch_request] goes on. *)
Theorem batch_non_object_payload_gets_500 requests i request parsed :
  requests !! i = Some request →
  json_loads env (data request) = Return parsed →
  (∀ kvs, parsed ≠ VDict kvs) →
  (instances_list (run_decode_loop env self requests).1.1 !! i = Some None ∧
   responses (run_decode_loop env self requests).1.1 !! i =
     Some (Build_SimpleResponse 500%Z None
             ("Internal Server Error: "
              +:+ format_exc env (AttributeError "object has no attribute 'get'")))) ∧
  (∃ log,
     batch_call env self func requests =
     (((run_decode_loop env self requests).1.1, log),
      after_decoding env self func (run_decode_loop env self requests).1.1 requests)).
Proof.
  intros Hi Hloads Hobj. split; [|apply batch_call_after_loop].
  rewrite run_decode_loop_eq. simpl.
  rewrite !list_lookup_fmap, Hi. simpl.
  unfold slot_instances, slot_response, recorded_response, decode_request.
  rewrite Hloads. simpl.
  destruct parsed; try done. by destruct (Hobj kvs).
Qed.

(** X6.  The two parse-error classes are caught first, wherever in the
    [try] body they come from: when the nested decoder raises
    [UnicodeDecodeError] or [JSONDecodeError] on the instances of a
    request, the request keeps the 400 response and contributes no
    instances; no 500 response is stored.  The lists after the loop are
    those with which the call of [handle_batch_request] goes on. *)
Theorem batch_decoder_parse_error_gets_400 requests i request kvs e :
  requests !! i = Some request →
  json_loads env (data request) = Return (VDict kvs) →
  is_None (assoc_get "instances" kvs) = false →
  decode_b64_if_needed env (assoc_get "instances" kvs) = Raise e →
  is_parse_error e = true →
  (instances_list (run_decode_loop env self requests).1.1 !! i = Some None ∧
   responses (run_decode_loop env self requests).1.1 !! i =
     Some (Build_SimpleResponse 400%Z None "input format error")) ∧
  (∃ log,
     batch_call env self func requests =
     (((run_decode_loop env self requests).1.1, log),
      after_decoding env self func (run_decode_loop env self requests).1.1 requests)).
Proof.
  intros Hi Hloads Hinst Hdec Hparse. split; [|apply batch_call_after_loop].
  rewrite run_decode_loop_eq. simpl.
  rewrite !list_lookup_fmap, Hi. simpl.
  unfold slot_instances, slot_response, recorded_response, decode_request.
  rewrite Hloads. simpl. unfold mbind, result_bind. rewrite Hinst. simpl.
  by rewrite Hdec, Hparse.
Qed.

(** X7.  In a call of [handle_batch_request] in which the merge, the
    array construction and the model function succeed, the list of
    fallbacks that the call hands to [to_batch_response] still has the
    400 response in the slot of a request whose instances were decoded:
    every slot of the fallbacks is filled, so a filled slot does not
    tell a failed request from a good one. *)
Theorem batch_good_request_keeps_400_fallback
    requests i request kvs v merged slices t r :
  requests !! i = Some request →
  json_loads env (data request) = Return (VDict kvs) →
  is_None (assoc_get "instances" kvs) = false →
  decode_b64_if_needed env (assoc_get "instances" kvs) = Return v →
  concat_list (instances_list (batch_call env self func requests).1.1)
              (batch_flags (batch_call env self func requests).1.1)
    = Return (merged, slices) →
  tf_constant env (VList merged) = Return t →
  func t = Return r →
  ∃ fallbacks,
    (run_batch env self func requests).2 =
      to_batch_response (output_adapter self) r slices fallbacks requests ∧
    fallbacks = responses (batch_call env self func requests).1.1 ∧
    length fallbacks = length requests ∧
    fallbacks !! i = Some (Build_SimpleResponse 400%Z None "input format error") ∧
    instances_list (batch_call env self func requests).1.1 !! i = Some (Some v).
Proof.
  rewrite batch_call_eq. simpl. intros Hi Hloads Hinst Hdec Hmerge Htf Hfunc.
  exists (slot_response env <$> requests).
  rewrite run_batch_result. unfold after_decoding. simpl.
  rewrite Hmerge. simpl. unfold mbind, result_bind. rewrite Htf, Hfunc.
  split_and!; try done.
  - by rewrite length_fmap.
  - rewrite list_lookup_fmap, Hi. simpl.
    unfold slot_response, recorded_response, decode_request.
    rewrite Hloads. simpl. unfold mbind, result_bind. rewrite Hinst. simpl.
    by rewrite Hdec.
  - rewrite list_lookup_fmap, Hi. simpl.
    unfold slot_instances, decode_request.
    rewrite Hloads. simpl. unfold mbind, result_bind. rewrite Hinst. simpl.
    by rewrite Hdec.
Qed.

(** X8.  Decoding is request by request: the lists and the log that the
    loop leaves for two batches put end to end are those of the first
    batch followed by those of the second. *)
Theorem decode_loop_of_appended_batches requests1 requests2 :
  let st := (run_decode_loop env self (requests1 ++ requests2)).1.1 in
  let st1 := (run_decode_loop env self requests1).1.1 in
  let st2 := (run_decode_loop env self requests2).1.1 in
  instances_list st = instances_list st1 ++ instances_list st2 ∧
  responses st = responses st1 ++ responses st2 ∧
  batch_flags st = batch_flags st1 ++ batch_flags st2 ∧
  (run_decode_loop env self (requests1 ++ requests2)).1.2 =
    (run_decode_loop env self requests1).1.2
    ++ (run_decode_loop env self requests2).1.2.
Proof.
  cbn zeta. rewrite !run_decode_loop_eq. simpl.
  unfold loop_events. rewrite !fmap_app, concat_app. done.
Qed.

(** X9.  After the loop each of the three lists has one entry per
    request, every request has a batch flag, and every fallback is a
    response without headers whose status is 400, 501 or 500. *)
Theorem decode_loop_lists_are_complete requests :
  let st := (run_decode_loop env self requests).1.1 in
  (run_decode_loop env self requests).2 = Return () ∧
  length (instances_list st) = length requests ∧
  length (responses st) = length requests ∧
  length (batch_flags st) = length requests ∧
  Forall (λ flag, flag ≠ None) (batch_flags st) ∧
  Forall (λ r, headers r = None ∧ is_fallback r) (responses st).
Proof.
  cbn zeta. rewrite run_decode_loop_eq. simpl.
  rewrite !length_fmap. split_and!; try done.
  - apply Forall_fmap, Forall_true. done.
  - apply Forall_fmap, Forall_true. intros request. simpl.
    unfold is_fallback, slot_response, recorded_response.
    destruct (decode_request env request) as [[]|e]; simpl; auto.
    destruct (is_parse_error e); simpl; auto.
Qed.

(** *** The single-request pipeline *)

Ltac run_steps :=
  unfold mbind, M_bind, result_bind, call, lift, modify, raise, in_frame,
    read_parsed_tensor, mret, M_ret, result_ret; simpl.

(** The first call of [_handle_raw_str] is the call of the JSON parser
    on its argument. *)
Lemma _handle_raw_str_log raw log :
  ∃ tail, (_handle_raw_str env func raw None log).1.2 = log ++ EvJsonLoads raw :: tail.
Proof.
  unfold _handle_raw_str. run_steps.
  destruct (json_loads env raw) as [parsed|e]; simpl; [|by exists []].
  destruct parsed; simpl; try by exists [].
  destruct (is_None (assoc_get "instances" kvs)); simpl.
  - destruct (truthy (assoc_get "inputs" kvs)); simpl; by exists [].
  - destruct (decode_b64_if_needed env _) as [v|e]; simpl.
    + destruct (tf_constant env v) as [t|e]; simpl;
        eexists; by rewrite <- !app_assoc.
    + eexists; by rewrite <- !app_assoc.
Qed.

(** The three channels in terms of [_handle_raw_str]: its log, and its
    result handed to the method of the output adapter. *)
Lemma handle_request_through (request : HttpRequest) raw log :
  content_type request = Some "application/json" →
  utf8_decode env (request_data request) = Return raw →
  let inner := _handle_raw_str env func raw None
                 (log ++ [EvUtf8Decode (request_data request)]) in
  handle_request env self func request () log =
  (((), inner.1.2),
   result ← inner.2; to_response (output_adapter self) result request).
Proof.
  intros Hct Hdec. cbn zeta. unfold handle_request.
  rewrite bool_decide_eq_true_2 by done. run_steps. rewrite Hdec.
  by destruct (_handle_raw_str env func raw None _) as [[st' log'] [out|e]].
Qed.

Lemma handle_cli_through args raw unknown_args log :
  parse_known_args env args = Some (raw, unknown_args) →
  let inner := _handle_raw_str env func raw None log in
  ∃ m, handle_cli env self func args = Some m ∧
       m () log =
       (((), inner.1.2),
        result ← inner.2; to_cli (output_adapter self) result unknown_args).
Proof.
  intros Hargs. cbn zeta. unfold handle_cli. rewrite Hargs. simpl.
  eexists. split; [done|]. run_steps.
  by destruct (_handle_raw_str env func raw None _) as [[st' log'] [out|e]].
Qed.

Lemma handle_aws_lambda_event_through event log :
  lambda_headers event !! "Content-Type" = Some "application/json" →
  let inner := _handle_raw_str env func (lambda_body event) None log in
  handle_aws_lambda_event env self func event () log =
  (((), inner.1.2),
   result ← inner.2; to_aws_lambda_event (output_adapter self) result event).
Proof.
  intros Hct. cbn zeta. unfold handle_aws_lambda_event. rewrite Hct. simpl.
  run_steps.
  by destruct (_handle_raw_str env func (lambda_body event) None _)
    as [[st' log'] [out|e]].
Qed.

Lemma log_extended_ne {A} (log : list A) x tail : log ++ x :: tail ≠ log.
Proof.
  intros Heq. apply (f_equal length) in Heq.
  rewrite length_app in Heq. simpl in Heq. lia.
Qed.

(** The content-type test of the HTTP channel. *)
Lemma http_gate (request : HttpRequest) log :
  (content_type request ≠ Some "application/json" →
   handle_request env self func request () log =
   (((), log),
    Raise (BadInput
      "Request content-type must be 'application/json' for this BentoService API"))) ∧
  (content_type request = Some "application/json" →
   ∃ tail, (handle_request env self func request () log).1.2 =
           log ++ EvUtf8Decode (request_data request) :: tail).
Proof.
  split.
  - intros Hct. unfold handle_request. by rewrite bool_decide_eq_false_2.
  - intros Hct.
    destruct (utf8_decode env (request_data request)) as [raw|e] eqn:Hdec.
    + rewrite (handle_request_through request raw log Hct Hdec). simpl.
      destruct (_handle_raw_str_log raw (log ++ [EvUtf8Decode (request_data request)]))
        as [tail ->].
      eexists. by rewrite <- app_assoc.
    + unfold handle_request. rewrite bool_decide_eq_true_2 by done.
      run_steps. rewrite Hdec. by exists [].
Qed.

(** X10.  The HTTP channel touches the body of a request exactly when
    the declared content type is the text [application/json]: for any
    other declaration (another type, a type with parameters, none) it
    makes no call at all and raises [BadInput]; for that one its first
    call is the decoding of the body. *)
Theorem http_body_touched_iff_json (request : HttpRequest) log :
  ((handle_request env self func request () log).1.2 = log ↔
   content_type request ≠ Some "application/json") ∧
  (content_type request ≠ Some "application/json" →
   (handle_request env self func request () log).2 =
     Raise (BadInput
       "Request content-type must be 'application/json' for this BentoService API")) ∧
  (content_type request = Some "application/json" →
   ∃ tail, (handle_request env self func request () log).1.2 =
           log ++ EvUtf8Decode (request_data request) :: tail).
Proof.
  destruct (http_gate request log) as [Hrefuse Hjson].
  split_and!; [split|..]; try done.
  - intros Hlog Hct. destruct (Hjson Hct) as [tail Htail].
    rewrite Htail in Hlog. by apply log_extended_ne in Hlog.
  - intros Hct. by rewrite Hrefuse.
  - intros Hct. by rewrite Hrefuse.
Qed.

(** X11.  The serverless channel touches the body of an event exactly
    when its [Content-Type] header is the text [application/json]; an
    event that declares another content type is refused with a
    [BentoMLException] whose message names that type, and nothing is
    called. *)
Theorem lambda_body_touched_iff_json event log :
  ((handle_aws_lambda_event env self func event () log).1.2 = log ↔
   lambda_headers event !! "Content-Type" ≠ Some "application/json") ∧
  (∀ declared,
     lambda_headers event !! "Content-Type" = Some declared →
     declared ≠ "application/json" →
     (handle_aws_lambda_event env self func event () log).2 =
       Raise (BentoMLException
         ("BentoML currently doesn't support Content-Type: " +:+ declared
          +:+ " for AWS Lambda"))).
Proof.
  split; [split|].
  - intros Hlog Hct.
    rewrite (handle_aws_lambda_event_through event log Hct) in Hlog. simpl in Hlog.
    destruct (_handle_raw_str_log (lambda_body event) log) as [tail Htail].
    rewrite Htail in Hlog. by apply log_extended_ne in Hlog.
  - intros Hct. unfold handle_aws_lambda_event, dict_index.
    destruct (lambda_headers event !! "Content-Type") as [declared|] eqn:Hh; simpl.
    + rewrite bool_decide_eq_false_2 by congruence. done.
    + done.
  - intros declared Hh Hne. unfold handle_aws_lambda_event, dict_index.
    rewrite Hh. simpl. by rewrite bool_decide_eq_false_2.
Qed.

(** The instance path when every step succeeds. *)
Lemma _handle_raw_str_success raw kvs v t out log :
  json_loads env raw = Return (VDict kvs) →
  is_None (assoc_get "instances" kvs) = false →
  decode_b64_if_needed env (assoc_get "instances" kvs) = Return v →
  tf_constant env v = Return t →
  func t = Return out →
  _handle_raw_str env func raw None log =
  ((Some t,
    log ++ [EvJsonLoads raw; EvDecodeB64 (assoc_get "instances" kvs);
            EvTfConstant v; EvFunc t]),
   Return out).
Proof.
  intros Hloads Hinst Hdec Htf Hfunc. unfold _handle_raw_str. run_steps.
  rewrite Hloads. simpl. rewrite Hinst. simpl. rewrite Hdec. simpl.
  rewrite Htf. simpl. rewrite Hfunc. by rewrite <- !app_assoc.
Qed.

(** X12.  End to end, for a payload that is an object with a non-null
    [instances] on which the nested decoder, the array constructor and
    the model function succeed: each channel calls the JSON parser, the
    decoder, the array constructor and the model function once each, in
    this order (the HTTP channel after decoding the body), and returns
    what its method of the output adapter returns for the output of the
    model function. *)
Theorem channels_return_adapter_output raw kvs v t out :
  json_loads env raw = Return (VDict kvs) →
  is_None (assoc_get "instances" kvs) = false →
  decode_b64_if_needed env (assoc_get "instances" kvs) = Return v →
  tf_constant env v = Return t →
  func t = Return out →
  let calls := [EvJsonLoads raw; EvDecodeB64 (assoc_get "instances" kvs);
                EvTfConstant v; EvFunc t] in
  (∀ request : HttpRequest,
     content_type request = Some "application/json" →
     utf8_decode env (request_data request) = Return raw →
     handle_request env self func request () [] =
       (((), EvUtf8Decode (request_data request) :: calls),
        to_response (output_adapter self) out request)) ∧
  (∀ args unknown_args,
     parse_known_args env args = Some (raw, unknown_args) →
     ∃ m, handle_cli env self func args = Some m ∧
          m () [] = (((), calls), to_cli (output_adapter self) out unknown_args)) ∧
  (∀ event,
     lambda_headers event !! "Content-Type" = Some "application/json" →
     lambda_body event = raw →
     handle_aws_lambda_event env self func event () [] =
       (((), calls), to_aws_lambda_event (output_adapter self) out event)).
Proof.
  intros Hloads Hinst Hdec Htf Hfunc. cbn zeta.
  pose proof (λ log, _handle_raw_str_success raw kvs v t out log
                       Hloads Hinst Hdec Htf Hfunc) as Hraw.
  split_and!.
  - intros request Hct Hutf.
    rewrite (handle_request_through request raw [] Hct Hutf). by rewrite Hraw.
  - intros args unknown_args Hargs.
    destruct (handle_cli_through args raw unknown_args [] Hargs) as (m & Hm & Hrun).
    exists m. split; [done|]. rewrite Hrun. by rewrite Hraw.
  - intros event Hct <-.
    rewrite (handle_aws_lambda_event_through event [] Hct). by rewrite Hraw.
Qed.

(** X13.  In the single-request pipeline a body that the JSON parser
    refuses is not turned into a response: the exception of the parser
    leaves [_handle_raw_str] and each of the three channels as it is,
    and nothing is called after the parser. *)
Theorem channels_propagate_parser_exception raw e :
  json_loads env raw = Raise e →
  _handle_raw_str env func raw None [] = ((None, [EvJsonLoads raw]), Raise e) ∧
  (∀ request : HttpRequest,
     content_type request = Some "application/json" →
     utf8_decode env (request_data request) = Return raw →
     handle_request env self func request () [] =
       (((), [EvUtf8Decode (request_data request); EvJsonLoads raw]), Raise e)) ∧
  (∀ args unknown_args,
     parse_known_args env args = Some (raw, unknown_args) →
     ∃ m, handle_cli env self func args = Some m ∧
          m () [] = (((), [EvJsonLoads raw]), Raise e)) ∧
  (∀ event,
     lambda_headers event !! "Content-Type" = Some "application/json" →
     lambda_body event = raw →
     handle_aws_lambda_event env self func event () [] =
       (((), [EvJsonLoads raw]), Raise e)).
Proof.
  intros Hloads.
  assert (Hraw : ∀ log, _handle_raw_str env func raw None log =
                        ((None, log ++ [EvJsonLoads raw]), Raise e)).
  { intros log. unfold _handle_raw_str. run_steps. by rewrite Hloads. }
  split_and!.
  - apply Hraw.
  - intros request Hct Hutf.
    rewrite (handle_request_through request raw [] Hct Hutf). by rewrite Hraw.
  - intros args unknown_args Hargs.
    destruct (handle_cli_through args raw unknown_args [] Hargs) as (m & Hm & Hrun).
    exists m. split; [done|]. rewrite Hrun. by rewrite Hraw.
  - intros event Hct <-.
    rewrite (handle_aws_lambda_event_through event [] Hct). by rewrite Hraw.
Qed.

(** X14.  When the body of an HTTP request of content type
    application/json cannot be decoded as UTF-8, the exception of the
    decoding leaves [handle_request]; the JSON parser and the model
    function are not called. *)
Theorem http_undecodable_body_propagates (request : HttpRequest) e log :
  content_type request = Some "application/json" →
  utf8_decode env (request_data request) = Raise e →
  handle_request env self func request () log =
  (((), log ++ [EvUtf8Decode (request_data request)]), Raise e).
Proof.
  intros Hct Hdec. unfold handle_request.
  rewrite bool_decide_eq_true_2 by done. run_steps. by rewrite Hdec.
Qed.

(** X15.  In the single-request pipeline a payload that is an object
    with a truthy [inputs] and an [instances] that is absent or null
    raises [NotImplementedError]; the decoder, the array constructor and
    the model function are not called, and each of the three channels
    lets the exception through. *)
Theorem channels_raise_not_implemented_for_inputs raw kvs :
  json_loads env raw = Return (VDict kvs) →
  assoc_get "instances" kvs = VNone →
  truthy (assoc_get "inputs" kvs) = true →
  let err := NotImplementedError "column format 'inputs' is not implemented" in
  _handle_raw_str env func raw None [] = ((None, [EvJsonLoads raw]), Raise err) ∧
  (∀ request : HttpRequest,
     content_type request = Some "application/json" →
     utf8_decode env (request_data request) = Return raw →
     handle_request env self func request () [] =
       (((), [EvUtf8Decode (request_data request); EvJsonLoads raw]), Raise err)) ∧
  (∀ args unknown_args,
     parse_known_args env args = Some (raw, unknown_args) →
     ∃ m, handle_cli env self func args = Some m ∧
          m () [] = (((), [EvJsonLoads raw]), Raise err)) ∧
  (∀ event,
     lambda_headers event !! "Content-Type" = Some "application/json" →
     lambda_body event = raw →
     handle_aws_lambda_event env self func event () [] =
       (((), [EvJsonLoads raw]), Raise err)).
Proof.
  intros Hloads Hinst Hinputs. cbn zeta.
  assert (Hraw : ∀ log, _handle_raw_str env func raw None log =
    ((None, log ++ [EvJsonLoads raw]),
     Raise (NotImplementedError "column format 'inputs' is not implemented"))).
  { intros log. unfold _handle_raw_str. run_steps.
    rewrite Hloads. simpl. rewrite Hinst. simpl. by rewrite Hinputs. }
  split_and!.
  - apply Hraw.
  - intros request Hct Hutf.
    rewrite (handle_request_through request raw [] Hct Hutf). by rewrite Hraw.
  - intros args unknown_args Hargs.
    destruct (handle_cli_through args raw unknown_args [] Hargs) as (m & Hm & Hrun).
    exists m. split; [done|]. rewrite Hrun. by rewrite Hraw.
  - intros event Hct <-.
    rewrite (handle_aws_lambda_event_through event [] Hct). by rewrite Hraw.
Qed.

(** X16.  [_handle_raw_str] calls the model function at most once, and
    only on an array that the array constructor built from the decoded
    value of a non-null [instances] field of an object payload; its
    result is then the result of that call. *)
Theorem single_request_calls_func_at_most_once raw :
  func_calls (_handle_raw_str env func raw None []).1.2 = [] ∨
  ∃ kvs v t,
    json_loads env raw = Return (VDict kvs) ∧
    is_None (assoc_get "instances" kvs) = false ∧
    decode_b64_if_needed env (assoc_get "instances" kvs) = Return v ∧
    tf_constant env v = Return t ∧
    func_calls (_handle_raw_str env func raw None []).1.2 = [t] ∧
    (_handle_raw_str env func raw None []).2 = func t.
Proof.
  unfold _handle_raw_str. run_steps.
  destruct (json_loads env raw) as [parsed|e] eqn:Hloads; simpl; [|by left].
  destruct parsed; simpl; try by left.
  destruct (is_None (assoc_get "instances" kvs)) eqn:Hinst; simpl.
  - destruct (truthy (assoc_get "inputs" kvs)); simpl; by left.
  - destruct (decode_b64_if_needed env _) as [v|e] eqn:Hdec; simpl; [|by left].
    destruct (tf_constant env v) as [t|e] eqn:Htf; simpl; [|by left].
    right. exists kvs, v, t. by split_and!.
Qed.

(** *** Configuration, construction and schema *)

(** X17.  The schema of the requests exists for the method [predict]
    only: for every other method reading [request_schema] raises
    [NotImplementedError] with a message that names the method, and this
    is so for [classify] and [regress], the other two methods that
    [METHODS] lists. *)
Theorem request_schema_only_for_predict :
  ((∃ schema, request_schema self = Return schema) ↔ method self = PREDICT) ∧
  (method self ≠ PREDICT →
   request_schema self =
     Raise (NotImplementedError ("method " +:+ method self +:+ " is not implemented"))) ∧
  (method self ∈ METHODS →
   method self = PREDICT ∨
   (method self = CLASSIFY ∨ method self = REGRESS) ∧
   ∃ e, request_schema self = Raise e).
Proof.
  unfold request_schema. split_and!; [split|..].
  - intros [schema Hs]. by case_bool_decide.
  - intros Hm. rewrite bool_decide_eq_true_2 by done. eauto.
  - intros Hm. by rewrite bool_decide_eq_false_2.
  - intros Hin. unfold METHODS in Hin.
    apply elem_of_cons in Hin as [Hm|Hin]; [by left|].
    right. split.
    + apply elem_of_cons in Hin as [Hm|Hin]; [by left|].
      apply list_elem_of_singleton in Hin. by right.
    + rewrite bool_decide_eq_false_2; [eauto|].
      apply elem_of_cons in Hin as [Hm|Hin]; [by rewrite Hm|].
      apply list_elem_of_singleton in Hin. by rewrite Hin.
Qed.

(** X18.  For a handler of method [predict], the content types that the
    schema lists are those that the HTTP channel accepts: a request
    that declares a content type has its body touched if and only if
    that content type is a key of the schema. *)
Theorem schema_lists_the_accepted_content_type (request : HttpRequest) ct log :
  method self = PREDICT →
  content_type request = Some ct →
  ((∃ kvs v, request_schema self = Return (VDict kvs) ∧ (ct, v) ∈ kvs) ↔
   (handle_request env self func request () log).1.2 ≠ log).
Proof.
  intros Hm Hct. unfold request_schema. rewrite bool_decide_eq_true_2 by done.
  destruct (http_gate request log) as [Hgate Hjson].
  split.
  - intros (kvs & v & Hs & Hin). simplify_eq.
    apply list_elem_of_singleton in Hin. simplify_eq.
    destruct (Hjson Hct) as [tail ->]. apply log_extended_ne.
  - intros Hlog.
    destruct (decide (ct = "application/json")) as [->|Hne].
    + eexists _, _. split; [done|]. by apply list_elem_of_singleton.
    + destruct Hlog. rewrite Hgate; [done|]. rewrite Hct. congruence.
Qed.

(** X19.  The method of a handler has no part in the handling of
    requests: two handlers with the same base configuration, the same
    override header and the same output adapter treat every batch, every
    HTTP request, every command line and every event alike, whatever
    their methods are. *)
Theorem method_is_ignored_by_request_handling
    (other : TensorflowTensorHandler Row HttpResponse CliResult LambdaResponse) :
  base_config other = base_config self →
  _BATCH_REQUEST_HEADER other = _BATCH_REQUEST_HEADER self →
  output_adapter other = output_adapter self →
  (∀ requests, run_batch env other func requests = run_batch env self func requests) ∧
  (∀ (request : HttpRequest) log,
     handle_request env other func request () log =
     handle_request env self func request () log) ∧
  (∀ args, handle_cli env other func args = handle_cli env self func args) ∧
  (∀ event log,
     handle_aws_lambda_event env other func event () log =
     handle_aws_lambda_event env self func event () log).
Proof.
  intros Hbase Hheader Hadapter. split_and!.
  - intros requests. rewrite !run_batch_eq. cbn zeta.
    assert (Hflags : ∀ request,
              request_batch_flag other request = request_batch_flag self request).
    { intros request. unfold request_batch_flag, config.
      rewrite !lookup_insert_ne by done. by rewrite Hbase, Hheader. }
    assert (Hlocals : decoded_locals env other requests = decoded_locals env self requests).
    { unfold decoded_locals. f_equal.
      apply list_fmap_ext. intros i request _. by rewrite Hflags. }
    by rewrite Hlocals, Hadapter.
  - intros request log. unfold handle_request. by rewrite Hadapter.
  - intros args. unfold handle_cli. by rewrite Hadapter.
  - intros event log. unfold handle_aws_lambda_event. by rewrite Hadapter.
Qed.

(** X20.  Construction: a handler built without a method has the method
    [predict], for which the schema exists; and when the initializer of
    the base class stores the [is_batch_input] that it receives in the
    configuration, the batch flag of a request that does not carry the
    override header is the [is_batch_input] given to [__init__], and
    [true] when none is given; the flags after the loop are those with
    which the call of [handle_batch_request] goes on to the merger. *)
Theorem constructed_handler_defaults {K : Type}
    (super_init : bool → K →
       gmap string pyval * string
       * OutputAdapter Row HttpResponse CliResult LambdaResponse)
    (chosen : option string) (is_batch_input : option bool) (base_kwargs : K)
    requests i request :
  (∀ b, (super_init b base_kwargs).1.1 !! "is_batch_input" = Some (VBool b)) →
  requests !! i = Some request →
  formated_headers request
    !! lower (_BATCH_REQUEST_HEADER (__init__ super_init chosen is_batch_input base_kwargs))
    = None →
  let handler := __init__ super_init chosen is_batch_input base_kwargs in
  batch_flags (run_decode_loop env handler requests).1.1 !! i
    = Some (Some (default true is_batch_input)) ∧
  method handler = default PREDICT chosen ∧
  (chosen = None → ∃ schema, request_schema handler = Return schema) ∧
  (∃ log,
     batch_call env handler func requests =
     (((run_decode_loop env handler requests).1.1, log),
      after_decoding env handler func (run_decode_loop env handler requests).1.1
        requests)).
Proof.
  intros Hstore Hi. cbn zeta. unfold __init__.
  specialize (Hstore (default true is_batch_input)).
  destruct (super_init (default true is_batch_input) base_kwargs)
    as [[base header] adapter].
  simpl in *. intros Hhdr. split_and!.
  - rewrite run_decode_loop_eq. simpl. rewrite list_lookup_fmap, Hi. simpl.
    do 2 f_equal. unfold request_batch_flag, config. simpl.
    rewrite Hhdr, lookup_insert_ne by done. rewrite Hstore. simpl.
    by destruct (default true is_batch_input).
  - done.
  - intros ->. unfold request_schema. simpl. eauto.
  - apply batch_call_after_loop.
Qed.

End MoreProperties.

(** ** The further properties on concrete inputs *)

Section MoreExamples.

Import Sample SampleMore.

Lemma batch_flag_header_is_exact_witness :
  batch_flags (run_decode_loop env handler batch_header_variants).1.1 !! 1
    = Some (Some false) ∧
  ∃ log,
    batch_call env handler func batch_header_variants =
    (((run_decode_loop env handler batch_header_variants).1.1, log),
     after_decoding env handler func (run_decode_loop env handler batch_header_variants).1.1 batch_header_variants).
Proof.
  apply (batch_flag_header_is_exact env handler func batch_header_variants 1
           (request [("bentoml-is-batch-request", "1")] body_row_5) "1");
    [reflexivity|reflexivity|discriminate].
Defined.

Lemma batch_object_without_fields_gets_400_witness :
  (instances_list (run_decode_loop env handler batch_edge_payloads).1.1 !! 0 = Some None ∧
   responses (run_decode_loop env handler batch_edge_payloads).1.1 !! 0 =
     Some (Build_SimpleResponse 400%Z None "input format error")) ∧
  ∃ log,
    batch_call env handler func batch_edge_payloads =
    (((run_decode_loop env handler batch_edge_payloads).1.1, log),
     after_decoding env handler func (run_decode_loop env handler batch_edge_payloads).1.1 batch_edge_payloads).
Proof.
  apply (batch_object_without_fields_gets_400 env handler func batch_edge_payloads 0
           (request [] body_empty_object) []);
    reflexivity.
Defined.

Lemma batch_non_object_payload_gets_500_witness :
  (instances_list (run_decode_loop env handler batch_edge_payloads).1.1 !! 1 = Some None ∧
   responses (run_decode_loop env handler batch_edge_payloads).1.1 !! 1 =
     Some (Build_SimpleResponse 500%Z None
             "Internal Server Error: Traceback (most recent call last): AttributeError")) ∧
  ∃ log,
    batch_call env handler func batch_edge_payloads =
    (((run_decode_loop env handler batch_edge_payloads).1.1, log),
     after_decoding env handler func (run_decode_loop env handler batch_edge_payloads).1.1 batch_edge_payloads).
Proof.
  apply (batch_non_object_payload_gets_500 env handler func batch_edge_payloads 1
           (request [] body_bare_array) (VList [ints [1; 2]%Z]));
    [reflexivity|reflexivity|discriminate].
Defined.

Lemma batch_decoder_parse_error_gets_400_witness :
  (instances_list (run_decode_loop strict_env handler batch_edge_payloads).1.1 !! 2
     = Some None ∧
   responses (run_decode_loop strict_env handler batch_edge_payloads).1.1 !! 2 =
     Some (Build_SimpleResponse 400%Z None "input format error")) ∧
  ∃ log,
    batch_call strict_env handler func batch_edge_payloads =
    (((run_decode_loop strict_env handler batch_edge_payloads).1.1, log),
     after_decoding strict_env handler func (run_decode_loop strict_env handler batch_edge_payloads).1.1 batch_edge_payloads).
Proof.
  apply (batch_decoder_parse_error_gets_400 strict_env handler func batch_edge_payloads 2
           (request [] body_row_5) [("instances", VList [ints [5]%Z])]
           (UnicodeDecodeError "invalid continuation byte"));
    reflexivity.
Defined.

Lemma batch_good_request_keeps_400_fallback_witness :
  ∃ fallbacks,
    (run_batch env handler func batch_edge_payloads).2 =
      to_batch_response (output_adapter handler) [ints [5]%Z]
        [(0, 0); (0, 0); (0, 1); (1, 1)] fallbacks batch_edge_payloads ∧
    fallbacks = responses (batch_call env handler func batch_edge_payloads).1.1 ∧
    length fallbacks = length batch_edge_payloads ∧
    fallbacks !! 2 = Some (Build_SimpleResponse 400%Z None "input format error") ∧
    instances_list (batch_call env handler func batch_edge_payloads).1.1 !! 2
      = Some (Some (VList [ints [5]%Z])).
Proof.
  apply (batch_good_request_keeps_400_fallback env handler func batch_edge_payloads 2
           (request [] body_row_5) [("instances", VList [ints [5]%Z])]
           (VList [ints [5]%Z]) [ints [5]%Z] [(0, 0); (0, 0); (0, 1); (1, 1)]
           (VList [ints [5]%Z]) [ints [5]%Z]);
    reflexivity.
Defined.

Lemma channels_return_adapter_output_witness :
  handle_request env handler func (json_request body_row_5) () [] =
    (((), [EvUtf8Decode body_row_5; EvJsonLoads body_row_5;
           EvDecodeB64 (VList [ints [5]%Z]); EvTfConstant (VList [ints [5]%Z]);
           EvFunc (VList [ints [5]%Z])]),
     Return "1") ∧
  (∃ m, handle_cli env handler func ["--input"; body_row_5; "-o"; "json"] = Some m ∧
        m () [] =
          (((), [EvJsonLoads body_row_5; EvDecodeB64 (VList [ints [5]%Z]);
                 EvTfConstant (VList [ints [5]%Z]); EvFunc (VList [ints [5]%Z])]),
           Return "1")) ∧
  handle_aws_lambda_event env handler func (json_event body_row_5) () [] =
    (((), [EvJsonLoads body_row_5; EvDecodeB64 (VList [ints [5]%Z]);
           EvTfConstant (VList [ints [5]%Z]); EvFunc (VList [ints [5]%Z])]),
     Return "1").
Proof.
  destruct (channels_return_adapter_output env handler func body_row_5
              [("instances", VList [ints [5]%Z])] (VList [ints [5]%Z])
              (VList [ints [5]%Z]) [ints [5]%Z]
              eq_refl eq_refl eq_refl eq_refl eq_refl)
    as (Hhttp & Hcli & Hlambda).
  split_and!.
  - apply (Hhttp (json_request body_row_5)); reflexivity.
  - apply (Hcli _ ["-o"; "json"]). reflexivity.
  - apply (Hlambda (json_event body_row_5)); reflexivity.
Defined.

Lemma channels_propagate_parser_exception_witness :
  handle_request env handler func (json_request body_malformed) () [] =
    (((), [EvUtf8Decode body_malformed; EvJsonLoads body_malformed]),
     Raise (JSONDecodeError "Expecting ',' delimiter")) ∧
  handle_aws_lambda_event env handler func (json_event body_malformed) () [] =
    (((), [EvJsonLoads body_malformed]),
     Raise (JSONDecodeError "Expecting ',' delimiter")).
Proof.
  destruct (channels_propagate_parser_exception env handler func body_malformed
              (JSONDecodeError "Expecting ',' delimiter") eq_refl)
    as (_ & Hhttp & _ & Hlambda).
  split.
  - apply (Hhttp (json_request body_malformed)); reflexivity.
  - apply (Hlambda (json_event body_malformed)); reflexivity.
Defined.

Lemma http_undecodable_body_propagates_witness :
  handle_request env handler func (json_request body_bad_encoding) () [] =
    (((), [EvUtf8Decode body_bad_encoding]),
     Raise (UnicodeDecodeError "invalid start byte")).
Proof.
  apply (http_undecodable_body_propagates env handler func
           (json_request body_bad_encoding) (UnicodeDecodeError "invalid start byte") []);
    reflexivity.
Defined.

Lemma channels_raise_not_implemented_for_inputs_witness :
  _handle_raw_str env func body_inputs_col None [] =
    ((None, [EvJsonLoads body_inputs_col]),
     Raise (NotImplementedError "column format 'inputs' is not implemented")) ∧
  handle_request env handler func (json_request body_inputs_col) () [] =
    (((), [EvUtf8Decode body_inputs_col; EvJsonLoads body_inputs_col]),
     Raise (NotImplementedError "column format 'inputs' is not implemented")).
Proof.
  destruct (channels_raise_not_implemented_for_inputs env handler func body_inputs_col
              [("inputs", VDict [("x", ints [1]%Z)])] eq_refl eq_refl eq_refl)
    as (Hraw & Hhttp & _).
  split; [exact Hraw|].
  apply (Hhttp (json_request body_inputs_col)); reflexivity.
Defined.

Lemma schema_lists_the_accepted_content_type_witness :
  ¬ (∃ kvs v, request_schema handler = Return (VDict kvs) ∧
              ("application/json; charset=utf-8", v) ∈ kvs) ∧
  (handle_request env handler func (text_request body_row_5) () []).1.2 = [].
Proof.
  pose proof (schema_lists_the_accepted_content_type env handler func
                (text_request body_row_5) "application/json; charset=utf-8" []
                eq_refl eq_refl) as Hiff.
  assert (Hlog : (handle_request env handler func (text_request body_row_5) () []).1.2
                 = []) by reflexivity.
  split; [|exact Hlog].
  intros Hkey. apply Hiff in Hkey. by apply Hkey.
Defined.

Lemma method_is_ignored_by_request_handling_witness :
  run_batch env classify_handler func batch_mixed = run_batch env handler func batch_mixed ∧
  handle_request env classify_handler func (json_request body_row_5) () [] =
  handle_request env handler func (json_request body_row_5) () [].
Proof.
  destruct (method_is_ignored_by_request_handling env handler func classify_handler
              eq_refl eq_refl eq_refl) as (Hbatch & Hhttp & _).
  split; [apply Hbatch|apply Hhttp].
Defined.

Lemma constructed_handler_defaults_witness :
  batch_flags
    (run_decode_loop env (__init__ super_init None (Some false) ()) batch_edge_payloads).1.1
    !! 0 = Some (Some false) ∧
  batch_flags
    (run_decode_loop env (__init__ super_init None None ()) batch_edge_payloads).1.1
    !! 0 = Some (Some true) ∧
  ∃ schema, request_schema (__init__ super_init None None ()) = Return schema.
Proof.
  destruct (constructed_handler_defaults env func super_init None (Some false) ()
              batch_edge_payloads 0 _ (λ b, eq_refl) eq_refl eq_refl)
    as (Hfalse & _ & _ & _).
  destruct (constructed_handler_defaults env func super_init None None ()
              batch_edge_payloads 0 _ (λ b, eq_refl) eq_refl eq_refl)
    as (Htrue & _ & Hschema & _).
  split_and!; [exact Hfalse|exact Htrue|exact (Hschema eq_refl)].
Defined.

(** The further properties without a precondition, on the batch of the
    examples: six bodies parsed in order, one array, one call. *)
Example batch_mixed_calls :
  loads_calls (run_batch env handler func batch_mixed).1 = data <$> batch_mixed ∧
  tf_constant_calls (run_batch env handler func batch_mixed).1
    = [VList [ints [5]; ints [6]; ints [7]]%Z] ∧
  func_calls (run_batch env handler func batch_mixed).1
    = [VList [ints [5]; ints [6]; ints [7]]%Z] ∧
  request_schema classify_handler
    = Raise (NotImplementedError "method classify is not implemented").
Proof. by vm_compute. Qed.

End MoreExamples.
